(** * Radar chart visual: a shallow embedding of radarChart.ts

    The development follows src/Clients/Visuals/visuals/radarChart.ts:
    the data-shape converter, the update/draw pass and the property
    accessors.

    Conventions of the embedding.
    - A JavaScript number is read as a real number (Stdlib [R]);
      [Math.min], [Math.max], [Math.sin], [Math.cos] are [Rmin], [Rmax],
      [sin], [cos].  Rounding is not modelled.  A quotient by zero is not
      a finite number (NaN or an infinity), and neither is anything
      computed from it: such a result is [None].  The code can reach one
      only in the coordinates of the data points ([settings.maxValue] or
      [settings.catTotal] equal to 0); every other quotient is taken
      inside a loop that does not run when its divisor is 0.
    - [undefined] is [None].  Reading a property of [undefined] raises a
      TypeError; reading an array past its end yields [undefined].
    - The scene graph is the list of elements appended to each of the two
      groups of the svg element, in the order of the append calls.
      Constant styling and the mouse handlers are left out. *)

From Stdlib Require Import String List Arith Lia ZArith Reals Lra DecimalString DecimalNat.
Import ListNotations.
Open Scope string_scope.
Open Scope list_scope.
Open Scope nat_scope.

Set Implicit Arguments.

(** ** Host data: the parts of the data view that the visual reads *)

Record DataViewMetadataColumn := { col_displayName : string }.

Definition DataViewScopeIdentity := string.

Record DataViewValueColumn := {
  source : DataViewMetadataColumn;
  col_values : list R;
  col_identity : DataViewScopeIdentity
}.

Record DataViewValueColumnGroup := { group_values : list DataViewValueColumn }.

(** [DataViewValueColumns] is an array of value columns that also carries
    an optional [source] and the method [grouped()]; [grouped] is the
    array that the call returns. *)
Record DataViewValueColumns := {
  columns : list DataViewValueColumn;
  values_source : option DataViewMetadataColumn;
  grouped : list DataViewValueColumnGroup
}.

Record DataViewCategoryColumn := {
  cat_source : DataViewMetadataColumn;
  cat_values : list string
}.

Record DataViewCategorical := {
  dv_categories : option (list DataViewCategoryColumn);
  dv_values : option DataViewValueColumns
}.

(** The objects of the metadata, keyed by object name and then by property
    name.  The capabilities of the visual fix the keys and the types of
    the properties, so [objects['nodes']] and [nodes['show']] are read as
    optional fields. *)
Record NodesObject := {
  nodes_show : option bool;
  nodes_sizeFactor : option R;
  nodes_shape : option string
}.

Record CategoryAxisObject := { categoryAxis_show : option bool }.

Record LevelAxisObject := {
  levelAxis_show : option bool;
  levelAxis_segments : option R;
  levelAxis_format : option string
}.

Record DataViewObjects := {
  obj_nodes : option NodesObject;
  obj_categoryAxis : option CategoryAxisObject;
  obj_levelAxis : option LevelAxisObject
}.

Record DataViewMetadata := { objects : option DataViewObjects }.

Record DataView := {
  metadata : DataViewMetadata;
  categorical : option DataViewCategorical
}.

Record IColorInfo := { color_value : string }.
Record IDataColorPalette := { getColorByIndex : nat -> IColorInfo }.

Record IViewport := { vp_width : R; vp_height : R }.

Record VisualUpdateOptions := {
  dataViews : option (list DataView);
  viewport : IViewport;
  suppressAnimations : bool
}.

(** ** The data model of the visual *)

Record RadarChartDataPoint := {
  value : R;
  categoryIndex : nat;
  seriesIndex : nat;
  color : string
}.

Record RadarChartSeries := {
  displayName : string;
  key : string;
  index : nat;
  data : list RadarChartDataPoint;
  identity : DataViewScopeIdentity;
  serie_color : string
}.

Record RadarChartData := {
  series : list RadarChartSeries;
  categories : list string;
  values : list RadarChartDataPoint
}.

Record RadarChartSettings := {
  width : R;
  height : R;
  catTotal : nat;
  catAxis : list string;
  radius : R;
  nodeRadius : R;
  levels : R;
  levelsFormat : option string;
  maxValue : option R
}.

(** ** Evaluation: TypeErrors and the record of array reads *)

(** One array read [a[i]]: which array, the index and the array's length. *)
Record ArrayRead := {
  read_array : string;
  read_index : nat;
  read_length : nat
}.

Definition in_bounds (r : ArrayRead) : bool := read_index r <? read_length r.

Inductive Result (A : Type) : Type :=
| Ok (a : A)
| TypeError.
Arguments TypeError {A}.

(** A computation threads the list of the array reads made so far and may
    stop with a TypeError. *)
Definition M (A : Type) : Type := list ArrayRead -> Result (A * list ArrayRead).

Definition ret {A} (a : A) : M A := fun reads => Ok (a, reads).

Definition bind {A B} (m : M A) (k : A -> M B) : M B :=
  fun reads =>
    match m reads with
    | Ok (a, reads') => k a reads'
    | TypeError => TypeError
    end.

Notation "x <- m ;; k" := (bind m (fun x => k))
  (at level 61, m at next level, right associativity).
Notation "' pat <- m ;; k" := (bind m (fun x => match x with pat => k end))
  (at level 61, pat pattern, m at next level, right associativity).

(** [o.p] for a possibly undefined [o]. *)
Definition deref {A} (o : option A) : M A :=
  match o with
  | Some a => ret a
  | None => fun _ => TypeError
  end.

(** [a[i]]. *)
Definition read {A} (name : string) (a : list A) (i : nat) : M (option A) :=
  fun reads =>
    Ok (nth_error a i,
        reads ++ [{| read_array := name; read_index := i; read_length := length a |}]).

(** [for (var i = start; i < start + count; i++) body], on a loop state. *)
Fixpoint for_loop {S} (count : nat) (body : nat -> S -> M S) (i : nat) (s : S) : M S :=
  match count with
  | O => ret s
  | Datatypes.S count' => s' <- body i s ;; for_loop count' body (Datatypes.S i) s'
  end.

(** Number to string, as in ["Serie" + seriesIndex]. *)
Definition string_of_nat (n : nat) : string :=
  NilEmpty.string_of_uint (Nat.to_uint n).

(** ** RadarChart.converter *)

Section Converter.

Variable dataView : DataView.
Variable colors : IDataColorPalette.

(** Body of the loop over [valueIndex]; the loop state is the pair of
    [dataPoints] and [values].  The loop keeps [valueIndex] below
    [serie.values.length], so [serie.values[valueIndex]] is an element of
    the column ([point_loop] below). *)
Definition point_body (categoryValues : list string) (serie : DataViewValueColumn)
    (seriesIndex valueIndex : nat)
    (st : list RadarChartDataPoint * list RadarChartDataPoint)
    : M (list RadarChartDataPoint * list RadarChartDataPoint) :=
  let '(dataPoints, values) := st in
  _categoryValue <- read "categoryValues" categoryValues valueIndex ;;
  value0 <- read "serie.values" (col_values serie) valueIndex ;;
  value <- deref value0 ;;
  let radarChartDataPoint := {|
    value := value;
    categoryIndex := valueIndex;
    seriesIndex := seriesIndex;
    color := color_value (getColorByIndex colors seriesIndex)
  |} in
  ret (dataPoints ++ [radarChartDataPoint], values ++ [radarChartDataPoint]).

(** Body of the loop over [seriesIndex]; the loop state is the pair of
    [series] and [values]. *)
Definition series_body (categorical : DataViewCategorical)
    (categoryValues : list string)
    (grouped : option (list DataViewValueColumnGroup))
    (seriesIndex : nat)
    (st : list RadarChartSeries * list RadarChartDataPoint)
    : M (list RadarChartSeries * list RadarChartDataPoint) :=
  let '(series, values) := st in
  cvalues <- deref (dv_values categorical) ;;
  serie0 <- read "categorical.values" (columns cvalues) seriesIndex ;;
  serie <- deref serie0 ;;
  let valuesMetadata := source serie in
  grouped' <- deref grouped ;;
  _groupedIdentity <- read "grouped" grouped' seriesIndex ;;
  _formattedCategoryValue <- read "categoryValues" categoryValues seriesIndex ;;
  '(dataPoints, values) <-
    for_loop (length (col_values serie))
      (point_body categoryValues serie seriesIndex) 0 ([], values) ;;
  let dvValues := dv_values categorical in
  let legendTitle :=
    match dvValues with
    | Some vs =>
        match values_source vs with
        | Some src => col_displayName src
        | None => ""
        end
    | None => ""
    end in
  if 0 <? length dataPoints then
    let serieInput := {|
      displayName := legendTitle;
      key := String.append "Serie" (string_of_nat seriesIndex);
      index := seriesIndex;
      data := dataPoints;
      identity := col_identity serie;
      serie_color := color_value (getColorByIndex colors seriesIndex)
    |} in
    ret (series ++ [serieInput], values)
  else ret (series, values).

Definition converter : M RadarChartData :=
  categorical <- deref (categorical dataView) ;;
  categories <- deref (dv_categories categorical) ;;
  category0 <- read "categorical.categories" categories 0 ;;
  category <- deref category0 ;;
  let categoryValues := cat_values category in
  let seriesLen :=
    match dv_values categorical with
    | Some cvalues => length (columns cvalues)
    | None => 0
    end in
  let grouped := option_map grouped (dv_values categorical) in
  '(series, values) <-
    for_loop seriesLen (series_body categorical categoryValues grouped) 0 ([], []) ;;
  ret {| categories := categoryValues; series := series; values := values |}.

End Converter.

(** ** Property accessors *)

(** [if (x)] on a possibly undefined boolean. *)
Definition truthy (x : option bool) : bool :=
  match x with
  | Some true => true
  | _ => false
  end.

Definition getShowNodes (dataView : option DataView) : option bool :=
  match dataView with
  | Some dv =>
      match objects (metadata dv) with
      | Some objs =>
          match obj_nodes objs with
          | Some nodes => nodes_show nodes
          | None => Some true
          end
      | None => Some true
      end
  | None => Some true
  end.

Definition getSizeFactorNodes (dataView : option DataView) : R :=
  match dataView with
  | Some dv =>
      match objects (metadata dv) with
      | Some objs =>
          match obj_nodes objs with
          | Some nodes =>
              match nodes_sizeFactor nodes with
              | Some sizeFactor => sizeFactor
              | None => 4%R
              end
          | None => 4%R
          end
      | None => 4%R
      end
  | None => 4%R
  end.

Definition getShapeNodes (dataView : option DataView) : string :=
  match dataView with
  | Some dv =>
      match objects (metadata dv) with
      | Some objs =>
          match obj_nodes objs with
          | Some nodes =>
              match nodes_shape nodes with
              | Some shape => shape
              | None => "square"
              end
          | None => "square"
          end
      | None => "square"
      end
  | None => "square"
  end.

Definition getShowLevelAxis (dataView : option DataView) : option bool :=
  match dataView with
  | Some dv =>
      match objects (metadata dv) with
      | Some objs =>
          match obj_levelAxis objs with
          | Some levelAxis => levelAxis_show levelAxis
          | None => Some true
          end
      | None => Some true
      end
  | None => Some true
  end.

Definition getFormatLevelAxis (dataView : option DataView) : option string :=
  match dataView with
  | Some dv =>
      match objects (metadata dv) with
      | Some objs =>
          match obj_levelAxis objs with
          | Some levelAxis => levelAxis_format levelAxis
          | None => Some "%"
          end
      | None => Some "%"
      end
  | None => Some "%"
  end.

Definition getSegmentsLevelAxis (dataView : option DataView) : R :=
  match dataView with
  | Some dv =>
      match objects (metadata dv) with
      | Some objs =>
          match obj_levelAxis objs with
          | Some levelAxis =>
              match levelAxis_segments levelAxis with
              | Some segments => segments
              | None => 4%R
              end
          | None => 4%R
          end
      | None => 4%R
      end
  | None => 4%R
  end.

Definition getShowCategoryAxis (dataView : option DataView) : option bool :=
  match dataView with
  | Some dv =>
      match objects (metadata dv) with
      | Some objs =>
          match obj_categoryAxis objs with
          | Some categoryAxis => categoryAxis_show categoryAxis
          | None => Some true
          end
      | None => Some true
      end
  | None => Some true
  end.

(** ** The scene and the state of the visual *)

Inductive TextContent :=
| LevelText (format : option string) (x : option R)
    (* [d3.format(format)(x)]; an undefined [x] stands for NaN *)
| CategoryText (d : string).

(** A coordinate of a data point is [None] when it is not a finite number:
    [settings.maxValue] is undefined or 0, or [settings.catTotal] is 0. *)
Inductive SvgElement :=
| SvgLine (x1 y1 x2 y2 : R) (stroke_width : string) (transform : R * R)
| SvgText (x y : R) (font_size : string) (transform : R * R) (text : TextContent)
| SvgPolygon (class : string) (stroke : string)
    (points : list (option R * option R)) (fill : string)
| SvgCircle (r alt : R) (cx cy : option R) (fill : string).

Record Group := {
  g_transform : option (R * R);
  g_children : list SvgElement
}.

Record RadarChart := {
  svg_size : option (R * R);
  dataGraphicsContext : Group;
  axisGraphicsContext : Group;
  this_dataView : option DataView;
  this_data : option RadarChartData;
  this_colors : IDataColorPalette;
  this_settings : option RadarChartSettings
}.

(** A call on the visual either returns, leaving the visual in a state, or
    throws a TypeError; the state left behind by a call that throws is not
    modelled. *)
Inductive Outcome :=
| Done (this : RadarChart)
| Threw.

Definition Factor : R := 1.
Definition FactorLegend : R := 85 / 100.
Definition ToRight : R := 5 / 10.
Definition TwoPI : R := 2 * PI.
Definition FontSize : string := "14px".
Definition FontSizeSmall : string := "12px".
Definition MarginFactor : R := 85 / 100.

Definition init (colorPalette : IDataColorPalette) : RadarChart := {|
  svg_size := None;
  dataGraphicsContext := {| g_transform := None; g_children := [] |};
  axisGraphicsContext := {| g_transform := None; g_children := [] |};
  this_dataView := None;
  this_data := None;
  this_colors := colorPalette;
  this_settings := None
|}.

Definition append (g : Group) (es : list SvgElement) : Group :=
  {| g_transform := g_transform g; g_children := g_children g ++ es |}.

Definition remove_all (g : Group) : Group :=
  {| g_transform := g_transform g; g_children := [] |}.

Definition with_axis (this : RadarChart) (g : Group) : RadarChart := {|
  svg_size := svg_size this;
  dataGraphicsContext := dataGraphicsContext this;
  axisGraphicsContext := g;
  this_dataView := this_dataView this;
  this_data := this_data this;
  this_colors := this_colors this;
  this_settings := this_settings this
|}.

Definition with_data_group (this : RadarChart) (g : Group) : RadarChart := {|
  svg_size := svg_size this;
  dataGraphicsContext := g;
  axisGraphicsContext := axisGraphicsContext this;
  this_dataView := this_dataView this;
  this_data := this_data this;
  this_colors := this_colors this;
  this_settings := this_settings this
|}.

Definition with_dataView (this : RadarChart) (dataView : DataView) : RadarChart := {|
  svg_size := svg_size this;
  dataGraphicsContext := dataGraphicsContext this;
  axisGraphicsContext := axisGraphicsContext this;
  this_dataView := Some dataView;
  this_data := this_data this;
  this_colors := this_colors this;
  this_settings := this_settings this
|}.

Definition with_data (this : RadarChart) (data : RadarChartData) : RadarChart := {|
  svg_size := svg_size this;
  dataGraphicsContext := dataGraphicsContext this;
  axisGraphicsContext := axisGraphicsContext this;
  this_dataView := this_dataView this;
  this_data := Some data;
  this_colors := this_colors this;
  this_settings := this_settings this
|}.

Definition with_settings (this : RadarChart) (settings : RadarChartSettings)
    : RadarChart := {|
  svg_size := svg_size this;
  dataGraphicsContext := dataGraphicsContext this;
  axisGraphicsContext := axisGraphicsContext this;
  this_dataView := this_dataView this;
  this_data := this_data this;
  this_colors := this_colors this;
  this_settings := Some settings
|}.

Definition with_svg_size (this : RadarChart) (size : R * R) : RadarChart := {|
  svg_size := Some size;
  dataGraphicsContext := dataGraphicsContext this;
  axisGraphicsContext := axisGraphicsContext this;
  this_dataView := this_dataView this;
  this_data := this_data this;
  this_colors := this_colors this;
  this_settings := this_settings this
|}.

(** [d3.max(array)]: the first element, replaced by each later element
    that is greater; undefined for an empty array. *)
Definition d3_max (array : list R) : option R :=
  match array with
  | [] => None
  | a :: rest => Some (fold_left (fun a b => if Rlt_dec a b then b else a) rest a)
  end.

(** The number of iterations of [for (var j = 0; j < bound; j++)] for a
    real [bound]: the least natural number that is not below it. *)
Definition iterations (bound : R) : nat := Z.to_nat (- Int_part (- bound)).

(** [l.map(function (d, i) ...)], with the index counted from [i]. *)
Fixpoint mapi {A B} (f : A -> nat -> B) (i : nat) (l : list A) : list B :=
  match l with
  | [] => []
  | d :: l' => f d i :: mapi f (S i) l'
  end.

(** ** RadarChart.drawAxis *)

Section Draw.

Variable settings : RadarChartSettings.

(** [i * RadarChart.TwoPI / settings.catTotal], for [catTotal <> 0].  The
    axis loops take it for [i < catTotal] only, and [point_x] and
    [point_y] below give no number when [catTotal] is 0. *)
Definition angle (i : nat) : R := (INR i * TwoPI / INR (catTotal settings))%R.

(** [settings.radius * ((j + 1) / settings.levels)] *)
Definition levelFactor (j : nat) : R :=
  (radius settings * ((INR j + 1) / levels settings))%R.

(** The segment of ring [j] between the axes [i] and [i + 1]. *)
Definition ring_line (j i : nat) : SvgElement :=
  SvgLine
    (levelFactor j * (1 - Factor * sin (angle i)))
    (levelFactor j * (1 - Factor * cos (angle i)))
    (levelFactor j * (1 - Factor * sin (angle (i + 1))))
    (levelFactor j * (1 - Factor * cos (angle (i + 1))))
    "0.3px"
    (width settings / 2 - levelFactor j, height settings / 2 - levelFactor j)%R.

Definition level_label (j : nat) : SvgElement :=
  SvgText
    (levelFactor j * (1 - Factor * sin 0))
    (levelFactor j * (1 - Factor * cos 0))
    FontSizeSmall
    (width settings / 2 - levelFactor j + ToRight, height settings / 2 - levelFactor j)%R
    (LevelText (levelsFormat settings)
       (option_map (fun maxValue => ((INR j + 1) * maxValue / levels settings)%R)
          (maxValue settings))).

Definition category_line (i : nat) : SvgElement :=
  SvgLine
    (radius settings)
    (radius settings)
    (radius settings * (1 - Factor * sin (angle i)))
    (radius settings * (1 - Factor * cos (angle i)))
    "1px"
    (width settings / 2 - radius settings, height settings / 2 - radius settings)%R.

Definition category_label (d : string) (i : nat) : SvgElement :=
  SvgText
    (radius settings * (1 - FactorLegend * sin (angle i)) - 70 * sin (angle i))
    (radius settings * (1 - FactorLegend * cos (angle i)) - 70 * cos (angle i))
    FontSize
    (width settings / 2 - radius settings, height settings / 2 - radius settings - 15)%R
    (CategoryText d).

(** The elements appended when the level axis is shown: the two nested
    loops over [j] and [i], then the loop of the labels. *)
Definition level_rings : list SvgElement :=
  flat_map (fun j => map (ring_line j) (seq 0 (catTotal settings)))
    (seq 0 (iterations (levels settings))).

Definition level_labels : list SvgElement :=
  map level_label (seq 0 (iterations (levels settings - 1))).

Definition category_axis : list SvgElement :=
  map category_line (seq 0 (catTotal settings)) ++ mapi category_label 0 (catAxis settings).

(** ** RadarChart.drawData *)

(** One coordinate pair of a data point [j] bound at index [i].  The
    quotient by [settings.maxValue] is NaN or infinite when [maxValue] is
    undefined or 0, and the sine and cosine are NaN when [catTotal] is 0:
    the coordinate is then no finite number. *)
Definition point_x (j : RadarChartDataPoint) (i : nat) : option R :=
  match maxValue settings, catTotal settings with
  | Some maxValue, S _ =>
      if Req_dec_T maxValue 0 then None
      else
        Some (radius settings
              * (1 - (Rmax (value j) 0 / maxValue) * Factor * sin (angle i)))%R
  | _, _ => None
  end.

Definition point_y (j : RadarChartDataPoint) (i : nat) : option R :=
  match maxValue settings, catTotal settings with
  | Some maxValue, S _ =>
      if Req_dec_T maxValue 0 then None
      else
        Some (radius settings
              * (1 - (Rmax (value j) 0 / maxValue) * Factor * cos (angle i)))%R
  | _, _ => None
  end.

Definition vertex (j : RadarChartDataPoint) (i : nat) : option R * option R :=
  (point_x j i, point_y j i).

Definition node (j : RadarChartDataPoint) (i : nat) : SvgElement :=
  SvgCircle (nodeRadius settings) (Rmax (value j) 0) (point_x j i) (point_y j i) (color j).

(** The loop over the series: one polygon each, closed by repeating its
    first vertex.  Building the points attribute of a polygon without
    vertices reads [undefined[0]]. *)
Fixpoint polygons (colors : IDataColorPalette) (j : nat) (series : list RadarChartSeries)
    : option (list SvgElement) :=
  match series with
  | [] => Some []
  | serie :: series' =>
      let dataValues := mapi vertex 0 (data serie) in
      match nth_error dataValues 0 with
      | None => None
      | Some first =>
          match polygons colors (S j) series' with
          | None => None
          | Some rest =>
              Some (SvgPolygon
                      (String.append "radar-chart-serie" (string_of_nat j))
                      (color_value (getColorByIndex colors j))
                      (dataValues ++ [first])
                      (color_value (getColorByIndex colors j)) :: rest)
          end
      end
  end.

End Draw.

Definition drawAxis (this : RadarChart) : Outcome :=
  let showLevelAxis := truthy (getShowLevelAxis (this_dataView this)) in
  let showCategoryAxis := truthy (getShowCategoryAxis (this_dataView this)) in
  match this_settings this with
  | None => if orb showLevelAxis showCategoryAxis then Threw else Done this
  | Some settings =>
      let axisGraphicsElement := axisGraphicsContext this in
      let axisGraphicsElement :=
        if showLevelAxis
        then append axisGraphicsElement (level_rings settings ++ level_labels settings)
        else axisGraphicsElement in
      let axisGraphicsElement :=
        if showCategoryAxis
        then append axisGraphicsElement (category_axis settings)
        else axisGraphicsElement in
      Done (with_axis this axisGraphicsElement)
  end.

Definition drawData (this : RadarChart) : Outcome :=
  match this_settings this, this_data this with
  | Some settings, Some data =>
      let dataGraphicsElement := {|
        g_transform :=
          Some (width settings / 2 - radius settings,
                height settings / 2 - radius settings)%R;
        g_children := g_children (dataGraphicsContext this)
      |} in
      match polygons settings (this_colors this) 0 (series data) with
      | None => Threw
      | Some areas =>
          let dataGraphicsElement := append dataGraphicsElement areas in
          let dataGraphicsElement :=
            if truthy (getShowNodes (this_dataView this))
            then append dataGraphicsElement (mapi (node settings) 0 (values data))
            else dataGraphicsElement in
          Done (with_data_group this dataGraphicsElement)
      end
  | _, _ => Threw
  end.

(** ** RadarChart.update *)

Definition update (this : RadarChart) (options : VisualUpdateOptions) : Outcome :=
  match dataViews options with
  | None => Done this
  | Some dvs =>
      match nth_error dvs 0 with
      | None => Done this
      | Some dataView =>
          let this := with_dataView this dataView in
          match converter dataView (this_colors this) [] with
          | TypeError => Threw
          | Ok (data, _) =>
              let this := with_data this data in
              let viewport := viewport options in
              let radius :=
                (Factor * Rmin (vp_width viewport / 2) (vp_height viewport / 2)
                 * MarginFactor)%R in
              let settings := {|
                width := vp_width viewport;
                height := vp_height viewport;
                catTotal := length (categories data);
                catAxis := categories data;
                radius := radius;
                nodeRadius := (radius * getSizeFactorNodes (this_dataView this) / 100)%R;
                levels := getSegmentsLevelAxis (this_dataView this);
                levelsFormat := getFormatLevelAxis (this_dataView this);
                maxValue := d3_max (map value (values data))
              |} in
              let this := with_settings this settings in
              let this :=
                with_svg_size this (vp_width viewport, vp_height viewport) in
              let this := with_axis this (remove_all (axisGraphicsContext this)) in
              let this := with_data_group this (remove_all (dataGraphicsContext this)) in
              match drawAxis this with
              | Done this => drawData this
              | Threw => Threw
              end
          end
      end
  end.

(** ** RadarChart.enumerateObjectInstances *)

Inductive PropertyValue :=
| PBoolean (b : bool)
| PNumber (x : R)
| PUndefined.

Definition of_boolean (x : option bool) : PropertyValue :=
  match x with
  | Some b => PBoolean b
  | None => PUndefined
  end.

Record VisualObjectInstance := {
  objectName : string;
  instance_displayName : string;
  selector : option string;
  properties : list (string * PropertyValue)
}.

Definition enumerateObjectInstances (this : RadarChart) (objectName : string)
    : list VisualObjectInstance :=
  let instances := [] in
  if String.eqb objectName "nodes" then
    let nodes := {|
      objectName := "nodes";
      instance_displayName := "Nodes";
      selector := None;
      properties := [("show", of_boolean (getShowNodes (this_dataView this)));
                     ("sizeFactor", PNumber (getSizeFactorNodes (this_dataView this)))]
    |} in
    instances ++ [nodes]
  else if String.eqb objectName "categoryAxis" then
    let categoryAxis := {|
      objectName := "categoryAxis";
      instance_displayName := "Category axis";
      selector := None;
      properties := [("show", of_boolean (getShowCategoryAxis (this_dataView this)))]
    |} in
    instances ++ [categoryAxis]
  else if String.eqb objectName "levelAxis" then
    let categoryAxis := {|
      objectName := "levelAxis";
      instance_displayName := "Level axis";
      selector := None;
      properties := [("show", of_boolean (getShowLevelAxis (this_dataView this)));
                     ("segments", PNumber (getSegmentsLevelAxis (this_dataView this)))]
    |} in
    instances ++ [categoryAxis]
  else instances.

(** ** Functional description of the converter's result

    The statements below describe what the two loops of the converter
    build: these definitions are compared with [converter], they are not
    part of the embedding. *)

(** The category column and the value columns that the converter reads. *)
Definition category_of (dataView : DataView) : option DataViewCategoryColumn :=
  match categorical dataView with
  | Some categorical =>
      match dv_categories categorical with
      | Some (category :: _) => Some category
      | _ => None
      end
  | None => None
  end.

Definition columns_of (dataView : DataView) : list DataViewValueColumn :=
  match categorical dataView with
  | Some categorical =>
      match dv_values categorical with
      | Some cvalues => columns cvalues
      | None => []
      end
  | None => []
  end.

Definition legend_title (cvalues : DataViewValueColumns) : string :=
  match values_source cvalues with
  | Some src => col_displayName src
  | None => ""
  end.

Definition legend_of (dataView : DataView) : string :=
  match categorical dataView with
  | Some categorical =>
      match dv_values categorical with
      | Some cvalues => legend_title cvalues
      | None => ""
      end
  | None => ""
  end.

Definition point_of (colors : IDataColorPalette) (seriesIndex : nat) (x : R)
    (valueIndex : nat) : RadarChartDataPoint := {|
  value := x;
  categoryIndex := valueIndex;
  seriesIndex := seriesIndex;
  color := color_value (getColorByIndex colors seriesIndex)
|}.

(** The data points made of one value column. *)
Definition points_of (colors : IDataColorPalette) (serie : DataViewValueColumn)
    (seriesIndex : nat) : list RadarChartDataPoint :=
  mapi (point_of colors seriesIndex) 0 (col_values serie).

Definition serie_of (colors : IDataColorPalette) (legendTitle : string)
    (serie : DataViewValueColumn) (seriesIndex : nat) : RadarChartSeries := {|
  displayName := legendTitle;
  key := String.append "Serie" (string_of_nat seriesIndex);
  index := seriesIndex;
  data := points_of colors serie seriesIndex;
  identity := col_identity serie;
  serie_color := color_value (getColorByIndex colors seriesIndex)
|}.

(** The series made of one value column: none when the column is empty. *)
Definition series_of (colors : IDataColorPalette) (legendTitle : string)
    (serie : DataViewValueColumn) (seriesIndex : nat) : list RadarChartSeries :=
  match col_values serie with
  | [] => []
  | _ :: _ => [serie_of colors legendTitle serie seriesIndex]
  end.

Definition converted (dataView : DataView) (colors : IDataColorPalette)
    (category : DataViewCategoryColumn) : RadarChartData := {|
  series := concat (mapi (series_of colors (legend_of dataView)) 0 (columns_of dataView));
  categories := cat_values category;
  values := concat (mapi (points_of colors) 0 (columns_of dataView))
|}.

(** The test for the data point made for series [s] at value index [v]. *)
Definition made_for (s v : nat) (p : RadarChartDataPoint) : bool :=
  (seriesIndex p =? s) && (categoryIndex p =? v).

Definition nonempty_column (serie : DataViewValueColumn) : bool :=
  match col_values serie with
  | [] => false
  | _ :: _ => true
  end.

(** The statement that a series sits in the returned list at the position
    given by its [index], with the key, identity and colours of that
    value column. *)
Definition series_at_own_index (dataView : DataView) (colors : IDataColorPalette)
    (result : RadarChartData) : Prop :=
  forall k s,
    nth_error (series result) k = Some s ->
    index s = k
    /\ key s = String.append "Serie" (string_of_nat k)
    /\ option_map col_identity (nth_error (columns_of dataView) k) = Some (identity s)
    /\ serie_color s = color_value (getColorByIndex colors k)
    /\ (forall p, In p (data s) -> seriesIndex p = k /\ color p = serie_color s).

(** ** Sample inputs *)

Definition sample_palette : IDataColorPalette :=
  {| getColorByIndex := fun i => {| color_value := String.append "color" (string_of_nat i) |} |}.

Definition sample_column (name : string) (xs : list R) : DataViewValueColumn :=
  {| source := {| col_displayName := name |}; col_values := xs; col_identity := name |}.

(** A data view with one category column and one group per value column. *)
Definition sample_dataView (objs : option DataViewObjects) (labels : list string)
    (cols : list DataViewValueColumn) : DataView := {|
  metadata := {| objects := objs |};
  categorical := Some {|
    dv_categories :=
      Some [{| cat_source := {| col_displayName := "Category" |}; cat_values := labels |}];
    dv_values :=
      Some {| columns := cols;
              values_source := Some {| col_displayName := "Series" |};
              grouped := map (fun c => {| group_values := [c] |}) cols |}
  |}
|}.

(** Two categories and two value columns, the first of them empty. *)
Definition dataView_empty_first : DataView :=
  sample_dataView None ["a"; "b"] [sample_column "x" []; sample_column "y" [5%R]].

(** Two categories and two value columns. *)
Definition dataView_two_by_two : DataView :=
  sample_dataView None ["a"; "b"]
    [sample_column "x" [1%R; 2%R]; sample_column "y" [3%R; 4%R]].

(** ** Functional description of a completed update *)

(** The settings that [update] computes. *)
Definition settings_of (dataView : DataView) (viewport : IViewport)
    (data : RadarChartData) : RadarChartSettings :=
  let radius :=
    (Factor * Rmin (vp_width viewport / 2) (vp_height viewport / 2) * MarginFactor)%R in
  {| width := vp_width viewport;
     height := vp_height viewport;
     catTotal := length (categories data);
     catAxis := categories data;
     radius := radius;
     nodeRadius := (radius * getSizeFactorNodes (Some dataView) / 100)%R;
     levels := getSegmentsLevelAxis (Some dataView);
     levelsFormat := getFormatLevelAxis (Some dataView);
     maxValue := d3_max (map value (values data)) |}.

(** The polygon of the series at position [j]. *)
Definition polygon_of (settings : RadarChartSettings) (colors : IDataColorPalette)
    (serie : RadarChartSeries) (j : nat) : SvgElement :=
  SvgPolygon
    (String.append "radar-chart-serie" (string_of_nat j))
    (color_value (getColorByIndex colors j))
    (mapi (vertex settings) 0 (data serie)
     ++ match data serie with
        | first :: _ => [vertex settings first 0]
        | [] => []
        end)
    (color_value (getColorByIndex colors j)).

(** The elements of the axis group after an update. *)
Definition axis_scene (dataView : DataView) (settings : RadarChartSettings)
    : list SvgElement :=
  (if truthy (getShowLevelAxis (Some dataView))
   then level_rings settings ++ level_labels settings else [])
  ++ (if truthy (getShowCategoryAxis (Some dataView))
      then category_axis settings else []).

(** The elements of the data group after an update. *)
Definition data_scene (dataView : DataView) (settings : RadarChartSettings)
    (colors : IDataColorPalette) (data : RadarChartData) : list SvgElement :=
  mapi (polygon_of settings colors) 0 (series data)
  ++ (if truthy (getShowNodes (Some dataView))
      then mapi (node settings) 0 (values data) else []).

Definition rendered (this : RadarChart) (viewport : IViewport) (dataView : DataView)
    (data : RadarChartData) : RadarChart :=
  let settings := settings_of dataView viewport data in
  {| svg_size := Some (vp_width viewport, vp_height viewport);
     dataGraphicsContext :=
       {| g_transform :=
            Some (width settings / 2 - radius settings,
                  height settings / 2 - radius settings)%R;
          g_children := data_scene dataView settings (this_colors this) data |};
     axisGraphicsContext :=
       {| g_transform := g_transform (axisGraphicsContext this);
          g_children := axis_scene dataView settings |};
     this_dataView := Some dataView;
     this_data := Some data;
     this_colors := this_colors this;
     this_settings := Some settings |}.

(** ** Statements about the property accessors *)

(** The data view is absent, has no metadata objects, or lacks the object
    that [object] selects. *)
Definition lacks {A} (dataView : option DataView)
    (object : DataViewObjects -> option A) : Prop :=
  match dataView with
  | None => True
  | Some dv =>
      match objects (metadata dv) with
      | None => True
      | Some objs => object objs = None
      end
  end.

(** A data view whose metadata has the given objects. *)
Definition dataView_with_objects (objs : DataViewObjects) : DataView :=
  sample_dataView (Some objs) ["a"; "b"]
    [sample_column "x" [1%R; 2%R]; sample_column "y" [3%R; 4%R]].

Definition objects_nodes_only : DataViewObjects := {|
  obj_nodes := Some {| nodes_show := Some false; nodes_sizeFactor := Some 7%R;
                       nodes_shape := None |};
  obj_categoryAxis := None;
  obj_levelAxis := None
|}.

Definition sample_options (dataView : DataView) : VisualUpdateOptions := {|
  dataViews := Some [dataView];
  viewport := {| vp_width := 200; vp_height := 200 |};
  suppressAnimations := false
|}.

Definition options_without_dataViews : VisualUpdateOptions := {|
  dataViews := None;
  viewport := {| vp_width := 200; vp_height := 200 |};
  suppressAnimations := false
|}.

(** ** Statements about the rendered coordinates *)

(** A formula over [settings.maxValue] and the angle of a category is a
    finite number when [maxValue] is defined and not 0 and there is at
    least one category. *)
Definition over_maxValue (settings : RadarChartSettings) (formula : R -> R)
    : option R :=
  match maxValue settings, catTotal settings with
  | Some maxValue, S _ =>
      if Req_dec_T maxValue 0 then None else Some (formula maxValue)
  | _, _ => None
  end.

(** The coordinates of a data point by value and category index, over
    [settings.maxValue]: without and with the clamp of the value at 0. *)
Definition unclamped_x (settings : RadarChartSettings) (p : RadarChartDataPoint)
    : option R :=
  over_maxValue settings
    (fun maxValue =>
       (radius settings
        * (1 - (value p / maxValue) * sin (angle settings (categoryIndex p))))%R).

Definition unclamped_y (settings : RadarChartSettings) (p : RadarChartDataPoint)
    : option R :=
  over_maxValue settings
    (fun maxValue =>
       (radius settings
        * (1 - (value p / maxValue) * cos (angle settings (categoryIndex p))))%R).

Definition clamped_x (settings : RadarChartSettings) (p : RadarChartDataPoint)
    : option R :=
  over_maxValue settings
    (fun maxValue =>
       (radius settings
        * (1 - (Rmax (value p) 0 / maxValue) * sin (angle settings (categoryIndex p))))%R).

Definition clamped_y (settings : RadarChartSettings) (p : RadarChartDataPoint)
    : option R :=
  over_maxValue settings
    (fun maxValue =>
       (radius settings
        * (1 - (Rmax (value p) 0 / maxValue) * cos (angle settings (categoryIndex p))))%R).

(** The visual shows every data point at the coordinates [fx], [fy]: its
    node, the circle that follows the polygons in the data group, when the
    nodes are shown, and its vertex in the polygon of its series. *)
Definition rendered_at (fx fy : RadarChartSettings -> RadarChartDataPoint -> option R)
    (this : RadarChart) : Prop :=
  forall settings result,
    this_settings this = Some settings ->
    this_data this = Some result ->
    (truthy (getShowNodes (this_dataView this)) = true ->
     forall k p,
       nth_error (values result) k = Some p ->
       exists r alt fill,
         nth_error (g_children (dataGraphicsContext this)) (length (series result) + k)
         = Some (SvgCircle r alt (fx settings p) (fy settings p) fill))
    /\ (forall j serie i p,
          nth_error (series result) j = Some serie ->
          nth_error (data serie) i = Some p ->
          exists class stroke points fill,
            nth_error (g_children (dataGraphicsContext this)) j
            = Some (SvgPolygon class stroke points fill)
            /\ nth_error points i = Some (fx settings p, fy settings p)).

(** Four categories and one value column with a negative value. *)
Definition dataView_negative : DataView :=
  sample_dataView None ["a"; "b"; "c"; "d"]
    [sample_column "x" [1%R; (-1)%R; 0%R; 0%R]].

(** ** Statements about the level axis *)

(** Both ends of a line, moved by its transform, lie at the distance [rho]
    from the centre of the viewport. *)
Definition on_circle (settings : RadarChartSettings) (rho : R) (e : SvgElement) : Prop :=
  match e with
  | SvgLine x1 y1 x2 y2 _ (tx, ty) =>
      ((x1 + tx - width settings / 2)² + (y1 + ty - height settings / 2)² = rho²
       /\ (x2 + tx - width settings / 2)² + (y2 + ty - height settings / 2)² = rho²)%R
  | _ => False
  end.

(** The counts taken from [settings.levels] as it stands:
    [levels * catTotal] ring segments and [levels - 1] level labels. *)
Definition level_axis_counts (settings : RadarChartSettings) : Prop :=
  (INR (length (level_rings settings)) = levels settings * INR (catTotal settings)
   /\ INR (length (level_labels settings)) = levels settings - 1)%R.

Definition objects_segments (segments : R) : DataViewObjects := {|
  obj_nodes := None;
  obj_categoryAxis := None;
  obj_levelAxis := Some {| levelAxis_show := Some true;
                           levelAxis_segments := Some segments;
                           levelAxis_format := None |}
|}.

(** ** Functional description of the converter's array reads *)

Definition point_reads (categoryValues : list string) (serie : DataViewValueColumn)
    (x : R) (valueIndex : nat) : list ArrayRead :=
  [{| read_array := "categoryValues"; read_index := valueIndex;
      read_length := length categoryValues |};
   {| read_array := "serie.values"; read_index := valueIndex;
      read_length := length (col_values serie) |}].

Definition series_reads (cvalues : DataViewValueColumns) (categoryValues : list string)
    (serie : DataViewValueColumn) (seriesIndex : nat) : list ArrayRead :=
  [{| read_array := "categorical.values"; read_index := seriesIndex;
      read_length := length (columns cvalues) |};
   {| read_array := "grouped"; read_index := seriesIndex;
      read_length := length (grouped cvalues) |};
   {| read_array := "categoryValues"; read_index := seriesIndex;
      read_length := length categoryValues |}]
  ++ concat (mapi (point_reads categoryValues serie) 0 (col_values serie)).

Definition converter_reads (dataView : DataView) : list ArrayRead :=
  match categorical dataView with
  | Some categorical =>
      match dv_categories categorical with
      | Some (category :: others) =>
          {| read_array := "categorical.categories"; read_index := 0;
             read_length := length (category :: others) |}
          :: match dv_values categorical with
             | Some cvalues =>
                 concat (mapi (series_reads cvalues (cat_values category)) 0
                           (columns cvalues))
             | None => []
             end
      | _ => []
      end
  | None => []
  end.

(** [grouped()] yields one group per value column. *)
Definition one_group_per_column (dataView : DataView) : Prop :=
  match categorical dataView with
  | Some categorical =>
      match dv_values categorical with
      | Some cvalues => length (grouped cvalues) = length (columns cvalues)
      | None => True
      end
  | None => True
  end.

(** One category and two value columns. *)
Definition dataView_one_category : DataView :=
  sample_dataView None ["a"] [sample_column "x" [1%R]; sample_column "y" [2%R]].

(** The three objects present, none of them with a [show] property. *)
Definition objects_without_show : DataViewObjects := {|
  obj_nodes := Some {| nodes_show := None; nodes_sizeFactor := Some 7%R;
                       nodes_shape := None |};
  obj_categoryAxis := Some {| categoryAxis_show := None |};
  obj_levelAxis := Some {| levelAxis_show := None; levelAxis_segments := Some 3%R;
                           levelAxis_format := None |}
|}.

(** ** Positions in the coordinates of the svg element *)

(** The ends of a line and the anchor of a text, moved by the transform of
    the element. *)
Definition line_start (e : SvgElement) : option (R * R) :=
  match e with
  | SvgLine x1 y1 _ _ _ (tx, ty) => Some (x1 + tx, y1 + ty)%R
  | _ => None
  end.

Definition line_end (e : SvgElement) : option (R * R) :=
  match e with
  | SvgLine _ _ x2 y2 _ (tx, ty) => Some (x2 + tx, y2 + ty)%R
  | _ => None
  end.


(** ** The objects of RadarChart.capabilities *)

Inductive ValueType :=
| TypeFormatString
| TypeBool
| TypeNumeric
| TypeFillSolidColor.

(** [capabilities.objects]: the properties of each object with the types
    declared for them. *)
Definition capabilities_objects : list (string * list (string * ValueType)) :=
  [("general", [("formatString", TypeFormatString)]);
   ("nodes", [("show", TypeBool); ("sizeFactor", TypeNumeric)]);
   ("categoryAxis", [("show", TypeBool)]);
   ("levelAxis", [("show", TypeBool); ("segments", TypeNumeric)]);
   ("dataPoint", [("defaultColor", TypeFillSolidColor);
                  ("showAllDataPoints", TypeBool);
                  ("fill", TypeFillSolidColor)])].

Fixpoint assoc {A} (name : string) (l : list (string * A)) : option A :=
  match l with
  | [] => None
  | (n, a) :: l' => if String.eqb name n then Some a else assoc name l'
  end.

(** A property value fits a declared type; [undefined] fits every type. *)
Definition has_type (v : PropertyValue) (t : ValueType) : bool :=
  match v, t with
  | PBoolean _, TypeBool => true
  | PNumber _, TypeNumeric => true
  | PUndefined, _ => true
  | _, _ => false
  end.

(** The data view with the [shape] property of its nodes object, if it has
    one, set to [shape]. *)
Definition with_shape (shape : option string) (dataView : DataView) : DataView := {|
  metadata := {|
    objects :=
      match objects (metadata dataView) with
      | Some objs =>
          Some {| obj_nodes :=
                    match obj_nodes objs with
                    | Some nodes =>
                        Some {| nodes_show := nodes_show nodes;
                                nodes_sizeFactor := nodes_sizeFactor nodes;
                                nodes_shape := shape |}
                    | None => None
                    end;
                  obj_categoryAxis := obj_categoryAxis objs;
                  obj_levelAxis := obj_levelAxis objs |}
      | None => None
      end
  |};
  categorical := categorical dataView
|}.

Definition objects_configured : DataViewObjects := {|
  obj_nodes := Some {| nodes_show := Some true; nodes_sizeFactor := Some 7%R;
                       nodes_shape := Some "circle" |};
  obj_categoryAxis := Some {| categoryAxis_show := Some false |};
  obj_levelAxis := Some {| levelAxis_show := Some true; levelAxis_segments := None;
                           levelAxis_format := None |}
|}.

(** The coordinate that the divisor [m] gives the data point [p] bound at
    index [i], with [trig] the sine or the cosine: no finite number when
    [m] is 0 or there is no category. *)
Definition scaled_by (settings : RadarChartSettings) (m : R) (p : RadarChartDataPoint)
    (i : nat) (trig : R -> R) : option R :=
  if Req_dec_T m 0 then None
  else
    match catTotal settings with
    | 0 => None
    | S _ =>
        Some (radius settings
              * (1 - (Rmax (value p) 0 / m)
                     * trig (INR i * (2 * PI) / INR (catTotal settings))))%R
    end.

(** ** Statement about the recomputation *)

(** Every call with a first data view returns with the data that the
    converter makes of that data view and with the settings computed from
    it and the viewport. *)
Definition recomputes (this : RadarChart) (options : VisualUpdateOptions) : Prop :=
  forall dataView others,
    dataViews options = Some (dataView :: others) ->
    exists this' result reads,
      update this options = Done this'
      /\ converter dataView (this_colors this) [] = Ok (result, reads)
      /\ this_data this' = Some result
      /\ this_settings this' = Some (settings_of dataView (viewport options) result).

(** A data view without a categorical. *)
Definition dataView_without_categorical : DataView :=
  {| metadata := {| objects := None |}; categorical := None |}.

(** * Properties *)

(** ** Evaluation on the sample inputs *)

Example string_of_nat_12 : string_of_nat 12 = "12".
Proof.
  reflexivity.
Qed.

Example converter_empty_first :
  exists reads,
    converter dataView_empty_first sample_palette [] =
    Ok ({| series :=
             [{| displayName := "Series"; key := "Serie1"; index := 1;
                 data := [{| value := 5; categoryIndex := 0; seriesIndex := 1;
                             color := "color1" |}];
                 identity := "y"; serie_color := "color1" |}];
           categories := ["a"; "b"];
           values := [{| value := 5; categoryIndex := 0; seriesIndex := 1;
                         color := "color1" |}] |}, reads).
Proof.
  eexists. cbv. reflexivity.
Qed.

Example converter_without_categorical :
  converter {| metadata := {| objects := None |}; categorical := None |}
    sample_palette [] = TypeError.
Proof.
  reflexivity.
Qed.

Example enumerate_unknown_object :
  enumerateObjectInstances (init sample_palette) "dataPoint" = [].
Proof.
  reflexivity.
Qed.

(** ** Lists, loops and the evaluation monad *)

Lemma skipn_cons_nth_error {A} (l : list A) :
  forall i x rest,
    skipn i l = x :: rest -> nth_error l i = Some x /\ skipn (S i) l = rest.
Proof.
  induction l as [|a l IH]; intros i x rest H.
  - destruct i; discriminate.
  - destruct i as [|i].
    + simpl in H. injection H as -> ->. split; reflexivity.
    + simpl in H. apply IH in H. exact H.
Qed.

Lemma mapi_length {A B} (f : A -> nat -> B) (l : list A) :
  forall i, length (mapi f i l) = length l.
Proof.
  induction l as [|a l IH]; intros i; simpl; [reflexivity | now rewrite IH].
Qed.

Lemma mapi_nth_error {A B} (f : A -> nat -> B) (l : list A) :
  forall i k, nth_error (mapi f i l) k = option_map (fun a => f a (i + k)) (nth_error l k).
Proof.
  induction l as [|a l IH]; intros i k.
  - destruct k; reflexivity.
  - destruct k as [|k]; simpl.
    + now rewrite Nat.add_0_r.
    + rewrite IH. now rewrite Nat.add_succ_comm.
Qed.

Lemma mapi_in {A B} (f : A -> nat -> B) (l : list A) :
  forall i b, In b (mapi f i l) ->
    exists k a, nth_error l k = Some a /\ b = f a (i + k).
Proof.
  induction l as [|a l IH]; intros i b H; simpl in H; [contradiction|].
  destruct H as [<- | H].
  - exists 0, a. split; [reflexivity | now rewrite Nat.add_0_r].
  - apply IH in H. destruct H as (k & a' & Hk & ->).
    exists (S k), a'. split; [exact Hk | now rewrite Nat.add_succ_comm].
Qed.

Lemma for_loop_step {S} (count : nat) (body : nat -> S -> M S) (i : nat) (s : S) reads :
  for_loop (Datatypes.S count) body i s reads
  = match body i s reads with
    | Ok (s', reads') => for_loop count body (Datatypes.S i) s' reads'
    | TypeError => TypeError
    end.
Proof.
  reflexivity.
Qed.

Lemma bind_deref_some {A B} (a : A) (k : A -> M B) reads :
  bind (deref (Some a)) k reads = k a reads.
Proof.
  reflexivity.
Qed.

Lemma bind_read {A B} (name : string) (a : list A) (i : nat)
    (k : option A -> M B) reads :
  bind (read name a i) k reads
  = k (nth_error a i)
      (reads ++ [{| read_array := name; read_index := i; read_length := length a |}]).
Proof.
  reflexivity.
Qed.

(** ** The loops of the converter *)

Section ConverterLoops.

Variable colors : IDataColorPalette.

Lemma point_body_step (categoryValues : list string) (serie : DataViewValueColumn)
    (seriesIndex i : nat) (x : R) dataPoints values reads :
  nth_error (col_values serie) i = Some x ->
  point_body colors categoryValues serie seriesIndex i (dataPoints, values) reads
  = Ok ((dataPoints ++ [point_of colors seriesIndex x i],
         values ++ [point_of colors seriesIndex x i]),
        reads ++ point_reads categoryValues serie x i).
Proof.
  intros Hnth. unfold point_body, bind, read, deref, ret, point_reads.
  rewrite Hnth, <- app_assoc. reflexivity.
Qed.

(** The loop over [valueIndex], run from [i] to the end of the column,
    pushes the remaining points on both lists. *)
Lemma point_loop (categoryValues : list string) (serie : DataViewValueColumn)
    (seriesIndex : nat) :
  forall rest i dataPoints values reads,
    skipn i (col_values serie) = rest ->
    for_loop (length rest) (point_body colors categoryValues serie seriesIndex) i
      (dataPoints, values) reads
    = Ok ((dataPoints ++ mapi (point_of colors seriesIndex) i rest,
           values ++ mapi (point_of colors seriesIndex) i rest),
          reads ++ concat (mapi (point_reads categoryValues serie) i rest)).
Proof.
  induction rest as [|x rest IH]; intros i dataPoints values reads Hskip.
  - simpl. unfold ret. now rewrite !app_nil_r.
  - apply skipn_cons_nth_error in Hskip. destruct Hskip as [Hnth Hskip].
    cbn [length]. rewrite for_loop_step. erewrite point_body_step by exact Hnth.
    rewrite IH by exact Hskip.
    cbn [mapi concat]. now rewrite <- !app_assoc.
Qed.

(** One round of the loop over [seriesIndex] pushes the points of the
    column on [values] and, unless the column is empty, its series on
    [series]. *)
Lemma series_body_step (categorical : DataViewCategorical)
    (cvalues : DataViewValueColumns) (categoryValues : list string)
    (serie : DataViewValueColumn) (seriesIndex : nat) series values reads :
  dv_values categorical = Some cvalues ->
  nth_error (columns cvalues) seriesIndex = Some serie ->
  series_body colors categorical categoryValues (Some (grouped cvalues)) seriesIndex
    (series, values) reads
  = Ok ((series ++ series_of colors (legend_title cvalues) serie seriesIndex,
         values ++ points_of colors serie seriesIndex),
        reads ++ series_reads cvalues categoryValues serie seriesIndex).
Proof.
  intros Hvalues Hnth.
  unfold series_body.
  rewrite Hvalues, bind_deref_some, bind_read, Hnth, bind_deref_some.
  rewrite bind_deref_some, !bind_read.
  unfold bind at 1.
  rewrite (point_loop categoryValues serie seriesIndex (rest := col_values serie))
    by reflexivity.
  cbn [app].
  unfold series_of, serie_of, points_of, legend_title, series_reads.
  rewrite <- !app_assoc. cbn [app].
  destruct (col_values serie) as [|x xs]; cbn [mapi length Nat.ltb Nat.leb].
  - unfold ret. now rewrite !app_nil_r.
  - reflexivity.
Qed.

(** The loop over [seriesIndex], run from [i] to the last value column. *)
Lemma series_loop (categorical : DataViewCategorical)
    (cvalues : DataViewValueColumns) (categoryValues : list string) :
  dv_values categorical = Some cvalues ->
  forall rest i series values reads,
    skipn i (columns cvalues) = rest ->
    for_loop (length rest)
      (series_body colors categorical categoryValues (Some (grouped cvalues))) i
      (series, values) reads
    = Ok ((series ++ concat (mapi (series_of colors (legend_title cvalues)) i rest),
           values ++ concat (mapi (points_of colors) i rest)),
          reads ++ concat (mapi (series_reads cvalues categoryValues) i rest)).
Proof.
  intros Hvalues.
  induction rest as [|serie rest IH]; intros i series values reads Hskip.
  - simpl. unfold ret. now rewrite !app_nil_r.
  - apply skipn_cons_nth_error in Hskip. destruct Hskip as [Hnth Hskip].
    cbn [length]. rewrite for_loop_step.
    rewrite (series_body_step _ categoryValues _ _ _ _ Hvalues Hnth).
    rewrite IH by exact Hskip.
    cbn [mapi concat]. now rewrite <- !app_assoc.
Qed.

End ConverterLoops.

(** ** The converter as a whole *)

(** With a categorical that has a first category column the converter
    returns: its result is [converted], and it makes the reads
    [converter_reads]. *)
Lemma converter_returns (dataView : DataView) (colors : IDataColorPalette)
    (category : DataViewCategoryColumn) reads :
  category_of dataView = Some category ->
  converter dataView colors reads
  = Ok (converted dataView colors category, reads ++ converter_reads dataView).
Proof.
  unfold category_of. intros Hcat.
  destruct (categorical dataView) as [categorical|] eqn:Hcategorical; [|discriminate].
  destruct (dv_categories categorical) as [[|category0 others]|] eqn:Hcategories;
    try discriminate.
  injection Hcat as ->.
  unfold converter, converted, columns_of, legend_of, converter_reads.
  rewrite Hcategorical, bind_deref_some, Hcategories, bind_deref_some, bind_read.
  cbn [nth_error]. rewrite bind_deref_some.
  destruct (dv_values categorical) as [cvalues|] eqn:Hvalues.
  - cbn [option_map]. unfold bind.
    rewrite (series_loop colors categorical (cat_values category)
               Hvalues (rest := columns cvalues)) by reflexivity.
    unfold ret. cbn [app]. now rewrite <- app_assoc.
  - cbn [option_map for_loop]. unfold bind, ret. reflexivity.
Qed.

Lemma converter_converted (dataView : DataView) (colors : IDataColorPalette)
    (category : DataViewCategoryColumn) reads :
  category_of dataView = Some category ->
  exists reads',
    converter dataView colors reads = Ok (converted dataView colors category, reads').
Proof.
  intros Hcat. eexists. apply converter_returns. exact Hcat.
Qed.

(** Without one it throws: [categorical.categories[0]] or
    [category.values] is read on [undefined]. *)
Lemma converter_throws (dataView : DataView) (colors : IDataColorPalette) reads :
  category_of dataView = None ->
  converter dataView colors reads = TypeError.
Proof.
  unfold category_of, converter. intros Hcat.
  destruct (categorical dataView) as [categorical|]; [|reflexivity].
  rewrite bind_deref_some.
  destruct (dv_categories categorical) as [[|category0 others]|];
    try discriminate; reflexivity.
Qed.

Lemma converter_inv (dataView : DataView) (colors : IDataColorPalette)
    reads data reads' :
  converter dataView colors reads = Ok (data, reads') ->
  exists category,
    category_of dataView = Some category /\ data = converted dataView colors category.
Proof.
  intros Hconv.
  destruct (category_of dataView) as [category|] eqn:Hcat.
  - exists category. split; [reflexivity|].
    destruct (converter_converted dataView colors reads Hcat) as [reads1 H1].
    rewrite H1 in Hconv. now injection Hconv.
  - rewrite converter_throws in Hconv by exact Hcat. discriminate.
Qed.

(** ** The flattened list of data points *)

Section Flattened.

Variable colors : IDataColorPalette.

Lemma series_data_flat (legendTitle : string) (cols : list DataViewValueColumn) :
  forall i,
    concat (map (@data) (concat (mapi (series_of colors legendTitle) i cols)))
    = concat (mapi (points_of colors) i cols).
Proof.
  induction cols as [|serie cols IH]; intros i; [reflexivity|].
  cbn [mapi concat]. rewrite map_app, concat_app, IH. f_equal.
  unfold series_of.
  destruct (col_values serie) eqn:Hvalues.
  - unfold points_of. now rewrite Hvalues.
  - cbn [map concat serie_of data]. now rewrite app_nil_r.
Qed.

Lemma made_for_other_series (s v k : nat) (vals : list R) :
  k <> s ->
  forall j, filter (made_for s v) (mapi (point_of colors k) j vals) = [].
Proof.
  intros Hk. induction vals as [|x vals IH]; intros j; [reflexivity|].
  cbn [mapi filter]. unfold made_for at 1. cbn [point_of seriesIndex].
  apply Nat.eqb_neq in Hk. rewrite Hk. cbn [andb]. apply IH.
Qed.

Lemma made_for_later_index (s v k : nat) (vals : list R) :
  forall j, v < j -> filter (made_for s v) (mapi (point_of colors k) j vals) = [].
Proof.
  induction vals as [|x vals IH]; intros j Hj; [reflexivity|].
  cbn [mapi filter]. unfold made_for at 1. cbn [point_of categoryIndex].
  assert (Hne : (j =? v) = false) by (apply Nat.eqb_neq; lia).
  rewrite Hne, Bool.andb_false_r. apply IH. lia.
Qed.

Lemma made_for_in_column (s : nat) (vals : list R) :
  forall j v x,
    nth_error vals v = Some x ->
    filter (made_for s (j + v)) (mapi (point_of colors s) j vals)
    = [point_of colors s x (j + v)].
Proof.
  induction vals as [|y vals IH]; intros j v x Hnth.
  - destruct v; discriminate.
  - cbn [mapi filter]. unfold made_for at 1. cbn [point_of seriesIndex categoryIndex].
    rewrite Nat.eqb_refl. cbn [andb].
    destruct v as [|v].
    + injection Hnth as ->. rewrite Nat.add_0_r, Nat.eqb_refl.
      rewrite made_for_later_index by lia. reflexivity.
    + assert (Hne : (j =? j + S v) = false) by (apply Nat.eqb_neq; lia).
      rewrite Hne. rewrite <- Nat.add_succ_comm. apply IH. exact Hnth.
Qed.

Lemma made_for_later_series (s v : nat) (cols : list DataViewValueColumn) :
  forall i, s < i ->
    filter (made_for s v) (concat (mapi (points_of colors) i cols)) = [].
Proof.
  induction cols as [|serie cols IH]; intros i Hi; [reflexivity|].
  cbn [mapi concat]. rewrite filter_app, IH by lia.
  unfold points_of. rewrite made_for_other_series by lia. reflexivity.
Qed.

Lemma made_for_once (cols : list DataViewValueColumn) :
  forall i s v serie x,
    nth_error cols s = Some serie ->
    nth_error (col_values serie) v = Some x ->
    filter (made_for (i + s) v) (concat (mapi (points_of colors) i cols))
    = [point_of colors (i + s) x v].
Proof.
  induction cols as [|serie0 cols IH]; intros i s v serie x Hs Hv.
  - destruct s; discriminate.
  - cbn [mapi concat]. rewrite filter_app.
    destruct s as [|s].
    + injection Hs as ->. rewrite Nat.add_0_r.
      rewrite made_for_later_series by lia. rewrite app_nil_r.
      unfold points_of. apply (made_for_in_column i (col_values serie) 0 v Hv).
    + unfold points_of at 1. rewrite made_for_other_series by lia.
      rewrite <- Nat.add_succ_comm. cbn [app]. eapply IH; eassumption.
Qed.

Lemma points_in (cols : list DataViewValueColumn) :
  forall i p,
    In p (concat (mapi (points_of colors) i cols)) ->
    exists s v serie x,
      nth_error cols s = Some serie /\ nth_error (col_values serie) v = Some x
      /\ p = point_of colors (i + s) x v.
Proof.
  intros i p Hin. apply in_concat in Hin. destruct Hin as (l & Hl & Hp).
  apply mapi_in in Hl. destruct Hl as (s & serie & Hs & ->).
  unfold points_of in Hp. apply mapi_in in Hp. destruct Hp as (v & x & Hv & ->).
  exists s, v, serie, x. auto.
Qed.

End Flattened.

(** C3. For every data view accepted by the converter, the returned
    [values] is the concatenation of the per-series data lists, in series
    order and then value-index order: it is the concatenation of the
    [data] of the returned series, the point made for series [s] at value
    index [v] occurs in it exactly once, and it has no other element. *)
Theorem converter_values_flattened (dataView : DataView) (colors : IDataColorPalette)
    (reads reads' : list ArrayRead) (result : RadarChartData) :
  converter dataView colors reads = Ok (result, reads') ->
  values result = concat (map (@data) (series result))
  /\ values result = concat (mapi (points_of colors) 0 (columns_of dataView))
  /\ (forall s v serie x,
        nth_error (columns_of dataView) s = Some serie ->
        nth_error (col_values serie) v = Some x ->
        filter (made_for s v) (values result) = [point_of colors s x v])
  /\ (forall p, In p (values result) ->
        exists s v serie x,
          nth_error (columns_of dataView) s = Some serie
          /\ nth_error (col_values serie) v = Some x
          /\ p = point_of colors s x v).
Proof.
  intros Hconv. apply converter_inv in Hconv.
  destruct Hconv as (category & _ & ->). cbn [converted values series].
  split; [now rewrite series_data_flat|].
  split; [reflexivity|].
  split.
  - intros s v serie x Hs Hv. exact (made_for_once colors _ 0 s v Hs Hv).
  - intros p Hp. exact (points_in colors _ 0 p Hp).
Qed.

(** ** The series *)

Section Series.

Variable colors : IDataColorPalette.
Variable legendTitle : string.

Lemma series_nth_error (cols : list DataViewValueColumn) :
  forall i k s,
    nth_error (concat (mapi (series_of colors legendTitle) i cols)) k = Some s ->
    exists j serie,
      nth_error cols j = Some serie
      /\ col_values serie <> []
      /\ s = serie_of colors legendTitle serie (i + j)
      /\ k = length (filter nonempty_column (firstn j cols)).
Proof.
  induction cols as [|serie0 cols IH]; intros i k s Hk.
  - destruct k; discriminate.
  - cbn [mapi concat] in Hk. unfold series_of at 1 in Hk.
    destruct (col_values serie0) as [|x xs] eqn:Hvalues.
    + cbn [app] in Hk. apply IH in Hk.
      destruct Hk as (j & serie & Hj & Hne & -> & ->).
      exists (S j), serie. split; [exact Hj|]. split; [exact Hne|]. split.
      * now rewrite Nat.add_succ_comm.
      * cbn [firstn filter]. unfold nonempty_column at 2. now rewrite Hvalues.
    + destruct k as [|k].
      * injection Hk as <-. exists 0, serie0.
        split; [reflexivity|]. split; [congruence|].
        split; [now rewrite Nat.add_0_r | reflexivity].
      * cbn [app nth_error] in Hk. apply IH in Hk.
        destruct Hk as (j & serie & Hj & Hne & -> & ->).
        exists (S j), serie. split; [exact Hj|]. split; [exact Hne|]. split.
        -- now rewrite Nat.add_succ_comm.
        -- cbn [firstn filter]. unfold nonempty_column at 2. now rewrite Hvalues.
Qed.

Lemma in_firstn {A} (a : A) (l : list A) :
  forall n, In a (firstn n l) -> In a l.
Proof.
  induction l as [|b l IH]; intros n Hin.
  - now rewrite firstn_nil in Hin.
  - destruct n as [|n]; [contradiction|].
    cbn [firstn] in Hin. destruct Hin as [-> | Hin]; [now left|].
    right. eapply IH. exact Hin.
Qed.

Lemma filter_all_length {A} (f : A -> bool) (l : list A) :
  (forall a, In a l -> f a = true) -> length (filter f l) = length l.
Proof.
  induction l as [|a l IH]; intros Hall; [reflexivity|].
  cbn [filter]. rewrite (Hall a) by now left.
  cbn [length]. rewrite IH; [reflexivity|]. intros b Hb. apply Hall. now right.
Qed.

End Series.

(** C5, as amended.  Every series in the list returned by the converter
    carries in [index] the position [i] of its value column: its key is
    ['Serie' + i], its identity is that of the [i]-th value column, and
    every point of its data has [seriesIndex = i] and the colour of the
    series, [colors.getColorByIndex(i).value].  Its position in the list
    is the number of non-empty value columns before column [i]; it is [i]
    when no value column is empty. *)
Theorem converter_series_index (dataView : DataView) (colors : IDataColorPalette)
    (reads reads' : list ArrayRead) (result : RadarChartData) :
  converter dataView colors reads = Ok (result, reads') ->
  forall k s,
    nth_error (series result) k = Some s ->
    key s = String.append "Serie" (string_of_nat (index s))
    /\ option_map col_identity (nth_error (columns_of dataView) (index s))
       = Some (identity s)
    /\ serie_color s = color_value (getColorByIndex colors (index s))
    /\ (forall p, In p (data s) -> seriesIndex p = index s /\ color p = serie_color s)
    /\ k = length (filter nonempty_column (firstn (index s) (columns_of dataView)))
    /\ ((forall serie, In serie (columns_of dataView) -> col_values serie <> []) ->
        index s = k).
Proof.
  intros Hconv k s Hk. apply converter_inv in Hconv.
  destruct Hconv as (category & _ & ->). cbn [converted series] in Hk.
  apply series_nth_error in Hk. destruct Hk as (j & serie & Hj & _ & -> & ->).
  cbn [serie_of key index identity serie_color data Nat.add].
  split; [reflexivity|]. split; [now rewrite Hj|]. split; [reflexivity|].
  split; [|split; [reflexivity|]].
  - intros p Hp. unfold points_of in Hp. apply mapi_in in Hp.
    destruct Hp as (v & x & _ & ->). split; reflexivity.
  - intros Hall. rewrite filter_all_length.
    + rewrite length_firstn.
      assert (j < length (columns_of dataView))
        by (apply nth_error_Some; congruence).
      lia.
    + intros serie' Hin. apply in_firstn in Hin. apply Hall in Hin.
      unfold nonempty_column. destruct (col_values serie'); congruence.
Qed.

(** The two-by-two sample is accepted, and its four points are flattened
    in series order. *)
Lemma converter_values_flattened_witness :
  exists result reads,
    converter dataView_two_by_two sample_palette [] = Ok (result, reads)
    /\ values result = concat (map (@data) (series result))
    /\ filter (made_for 1 0) (values result) = [point_of sample_palette 1 3%R 0].
Proof.
  destruct (@converter_converted dataView_two_by_two sample_palette
              {| cat_source := {| col_displayName := "Category" |};
                 cat_values := ["a"; "b"] |} [] eq_refl)
    as [reads Hconv].
  eexists. exists reads. split; [exact Hconv|].
  destruct (converter_values_flattened _ _ _ Hconv) as (Hflat & _ & Honce & _).
  split; [exact Hflat|].
  apply (Honce 1 0 (sample_column "y" [3%R; 4%R]) 3%R); reflexivity.
Defined.

(** The sample with an empty first column: its only series has index 1
    and sits at position 0. *)
Lemma series_at_own_index_counterexample :
  ~ (forall result reads,
       converter dataView_empty_first sample_palette [] = Ok (result, reads) ->
       series_at_own_index dataView_empty_first sample_palette result).
Proof.
  intros Hstated.
  destruct (@converter_converted dataView_empty_first sample_palette
              {| cat_source := {| col_displayName := "Category" |};
                 cat_values := ["a"; "b"] |} [] eq_refl)
    as [reads Hconv].
  specialize (Hstated _ _ Hconv 0 _ eq_refl).
  destruct Hstated as [Hindex _]. cbn in Hindex. discriminate.
Qed.

Lemma converter_series_index_witness :
  exists result reads s,
    converter dataView_two_by_two sample_palette [] = Ok (result, reads)
    /\ nth_error (series result) 1 = Some s
    /\ index s = 1
    /\ key s = "Serie1"
    /\ identity s = "y".
Proof.
  destruct (@converter_converted dataView_two_by_two sample_palette
              {| cat_source := {| col_displayName := "Category" |};
                 cat_values := ["a"; "b"] |} [] eq_refl)
    as [reads Hconv].
  eexists. exists reads. eexists. split; [exact Hconv|].
  split; [reflexivity|].
  destruct (converter_series_index _ _ _ Hconv 1 eq_refl)
    as (Hkey & Hidentity & _ & _ & _ & Hposition).
  split; [|split].
  - apply Hposition. intros serie [<- | [<- | []]]; discriminate.
  - exact Hkey.
  - reflexivity.
Defined.

(** ** A completed update *)

Lemma polygons_mapi (settings : RadarChartSettings) (colors : IDataColorPalette)
    (series : list RadarChartSeries) :
  (forall serie, In serie series -> data serie <> []) ->
  forall j,
    polygons settings colors j series = Some (mapi (polygon_of settings colors) j series).
Proof.
  induction series as [|serie series IH]; intros Hdata j; [reflexivity|].
  cbn [polygons mapi].
  assert (Hserie : data serie <> []) by (apply Hdata; now left).
  destruct (data serie) as [|first points] eqn:Hpoints; [congruence|].
  cbn [mapi nth_error]. rewrite IH by (intros s Hs; apply Hdata; now right).
  unfold polygon_of. rewrite Hpoints. reflexivity.
Qed.

Lemma converted_series_nonempty (dataView : DataView) (colors : IDataColorPalette)
    (category : DataViewCategoryColumn) :
  forall serie, In serie (series (converted dataView colors category)) -> data serie <> [].
Proof.
  intros serie Hin. apply In_nth_error in Hin. destruct Hin as [k Hk].
  cbn [converted series] in Hk. apply series_nth_error in Hk.
  destruct Hk as (j & col & _ & Hne & -> & _).
  cbn [serie_of data]. unfold points_of.
  destruct (col_values col); [congruence | discriminate].
Qed.

(** A call to [update] with a first data view that the converter accepts
    returns and leaves the visual as [rendered]. *)
Lemma update_rendered (this : RadarChart) (options : VisualUpdateOptions)
    (dataView : DataView) (others : list DataView) (category : DataViewCategoryColumn) :
  dataViews options = Some (dataView :: others) ->
  category_of dataView = Some category ->
  update this options
  = Done (rendered this (viewport options) dataView
            (converted dataView (this_colors this) category)).
Proof.
  intros Hviews Hcategory. unfold update. rewrite Hviews. cbn [nth_error].
  cbn [with_dataView this_colors].
  destruct (@converter_converted dataView (this_colors this) category [] Hcategory)
    as [reads Hconv].
  rewrite Hconv.
  cbv beta iota zeta delta
    [drawAxis drawData with_data with_settings with_svg_size with_axis with_data_group
     with_dataView this_settings this_dataView this_data this_colors
     axisGraphicsContext dataGraphicsContext svg_size remove_all
     g_children g_transform append].
  destruct (truthy (getShowLevelAxis (Some dataView))) eqn:HshowLevel;
    destruct (truthy (getShowCategoryAxis (Some dataView))) eqn:HshowCategory;
    rewrite polygons_mapi by apply converted_series_nonempty;
    unfold rendered, axis_scene, data_scene, settings_of;
    rewrite HshowLevel, HshowCategory;
    destruct (truthy (getShowNodes (Some dataView)));
    cbn [app width height radius]; rewrite ?app_nil_r; reflexivity.
Qed.

(** A call to [update] with a first data view that the converter rejects
    throws. *)
Lemma update_throws (this : RadarChart) (options : VisualUpdateOptions)
    (dataView : DataView) (others : list DataView) :
  dataViews options = Some (dataView :: others) ->
  category_of dataView = None ->
  update this options = Threw.
Proof.
  intros Hviews Hcategory. unfold update. rewrite Hviews. cbn [nth_error].
  now rewrite converter_throws.
Qed.

Lemma update_inv (this this' : RadarChart) (options : VisualUpdateOptions)
    (dataView : DataView) (others : list DataView) :
  dataViews options = Some (dataView :: others) ->
  update this options = Done this' ->
  exists category,
    category_of dataView = Some category
    /\ this' = rendered this (viewport options) dataView
                 (converted dataView (this_colors this) category).
Proof.
  intros Hviews Hupdate.
  destruct (category_of dataView) as [category|] eqn:Hcategory.
  - exists category. split; [reflexivity|].
    rewrite (update_rendered this options Hviews Hcategory) in Hupdate.
    now injection Hupdate.
  - rewrite (update_throws this options Hviews Hcategory) in Hupdate. discriminate.
Qed.

(** ** The property accessors and the property pane *)

(** C10. When the data view is absent, has no metadata objects, or lacks
    the relevant object, the accessors return their defaults:
    [getShowNodes], [getShowLevelAxis] and [getShowCategoryAxis] return
    true, [getSizeFactorNodes] and [getSegmentsLevelAxis] return 4, and
    [getFormatLevelAxis] returns ['%']. *)
Theorem accessors_default (dataView : option DataView) :
  (lacks dataView obj_nodes ->
     getShowNodes dataView = Some true /\ getSizeFactorNodes dataView = 4%R)
  /\ (lacks dataView obj_levelAxis ->
        getShowLevelAxis dataView = Some true
        /\ getSegmentsLevelAxis dataView = 4%R
        /\ getFormatLevelAxis dataView = Some "%")
  /\ (lacks dataView obj_categoryAxis -> getShowCategoryAxis dataView = Some true).
Proof.
  unfold lacks, getShowNodes, getSizeFactorNodes, getShowLevelAxis,
    getSegmentsLevelAxis, getFormatLevelAxis, getShowCategoryAxis.
  destruct dataView as [dv|]; [destruct (objects (metadata dv)) as [objs|] |];
    (split; [|split]); intros Hlacks; try rewrite Hlacks; repeat split; reflexivity.
Qed.

Lemma accessors_default_witness :
  getShowNodes None = Some true
  /\ getSegmentsLevelAxis (Some (dataView_with_objects objects_nodes_only)) = 4%R
  /\ getFormatLevelAxis (Some dataView_two_by_two) = Some "%"
  /\ getShowCategoryAxis (Some (dataView_with_objects objects_nodes_only)) = Some true.
Proof.
  split; [apply (accessors_default None); exact I|].
  split; [apply (accessors_default (Some (dataView_with_objects objects_nodes_only)));
          reflexivity|].
  split; [apply (accessors_default (Some dataView_two_by_two)); exact I|].
  apply (accessors_default (Some (dataView_with_objects objects_nodes_only))).
  reflexivity.
Defined.

(** The data view that a completed update stores. *)
Lemma update_stores_dataView (this this' : RadarChart) (options : VisualUpdateOptions)
    (dataView : DataView) (others : list DataView) :
  dataViews options = Some (dataView :: others) ->
  update this options = Done this' ->
  this_dataView this' = Some dataView.
Proof.
  intros Hviews Hupdate.
  destruct (update_inv this options Hviews Hupdate) as (category & _ & ->).
  reflexivity.
Qed.

(** C7. For the object names ['nodes'], ['categoryAxis'] and
    ['levelAxis'], [enumerateObjectInstances] returns exactly one instance,
    whose properties echo what the stored data view holds for that object:
    the object's own [show], [sizeFactor] and [segments] where the data
    view has the object ([show] as stored, also when undefined; 4 for an
    undefined number), and true and 4 where the data view, its objects or
    the object are missing.  For every other name it returns the empty
    list.  The stored data view is the first data view of the last
    completed update. *)
Theorem enumerateObjectInstances_echo (this : RadarChart) (name : string) :
  (name = "nodes" ->
     exists show sizeFactor,
       enumerateObjectInstances this name
       = [{| objectName := "nodes"; instance_displayName := "Nodes"; selector := None;
             properties := [("show", show); ("sizeFactor", PNumber sizeFactor)] |}]
       /\ (lacks (this_dataView this) obj_nodes ->
           show = PBoolean true /\ sizeFactor = 4%R)
       /\ (forall dv objs nodes,
             this_dataView this = Some dv ->
             objects (metadata dv) = Some objs ->
             obj_nodes objs = Some nodes ->
             show = match nodes_show nodes with
                    | Some b => PBoolean b
                    | None => PUndefined
                    end
             /\ sizeFactor = match nodes_sizeFactor nodes with
                             | Some x => x
                             | None => 4%R
                             end))
  /\ (name = "categoryAxis" ->
        exists show,
          enumerateObjectInstances this name
          = [{| objectName := "categoryAxis"; instance_displayName := "Category axis";
                selector := None;
                properties := [("show", show)] |}]
          /\ (lacks (this_dataView this) obj_categoryAxis -> show = PBoolean true)
          /\ (forall dv objs categoryAxis,
                this_dataView this = Some dv ->
                objects (metadata dv) = Some objs ->
                obj_categoryAxis objs = Some categoryAxis ->
                show = match categoryAxis_show categoryAxis with
                       | Some b => PBoolean b
                       | None => PUndefined
                       end))
  /\ (name = "levelAxis" ->
        exists show segments,
          enumerateObjectInstances this name
          = [{| objectName := "levelAxis"; instance_displayName := "Level axis";
                selector := None;
                properties := [("show", show); ("segments", PNumber segments)] |}]
          /\ (lacks (this_dataView this) obj_levelAxis ->
              show = PBoolean true /\ segments = 4%R)
          /\ (forall dv objs levelAxis,
                this_dataView this = Some dv ->
                objects (metadata dv) = Some objs ->
                obj_levelAxis objs = Some levelAxis ->
                show = match levelAxis_show levelAxis with
                       | Some b => PBoolean b
                       | None => PUndefined
                       end
                /\ segments = match levelAxis_segments levelAxis with
                              | Some x => x
                              | None => 4%R
                              end))
  /\ (name <> "nodes" -> name <> "categoryAxis" -> name <> "levelAxis" ->
        enumerateObjectInstances this name = [])
  /\ (forall previous options dataView others,
        dataViews options = Some (dataView :: others) ->
        update previous options = Done this ->
        this_dataView this = Some dataView).
Proof.
  split; [|split; [|split; [|split]]].
  - intros ->. do 2 eexists. split; [reflexivity|]. split.
    + unfold lacks, getShowNodes, getSizeFactorNodes.
      destruct (this_dataView this) as [dv|]; [|split; reflexivity].
      destruct (objects (metadata dv)) as [objs|]; [|split; reflexivity].
      intros ->. split; reflexivity.
    + intros dv objs nodes Hdv Hobjects Hnodes.
      unfold getShowNodes, getSizeFactorNodes. rewrite Hdv, Hobjects, Hnodes.
      split; [destruct (nodes_show nodes); reflexivity | reflexivity].
  - intros ->. eexists. split; [reflexivity|]. split.
    + unfold lacks, getShowCategoryAxis.
      destruct (this_dataView this) as [dv|]; [|reflexivity].
      destruct (objects (metadata dv)) as [objs|]; [|reflexivity].
      intros ->. reflexivity.
    + intros dv objs categoryAxis Hdv Hobjects HcategoryAxis.
      unfold getShowCategoryAxis. rewrite Hdv, Hobjects, HcategoryAxis.
      destruct (categoryAxis_show categoryAxis); reflexivity.
  - intros ->. do 2 eexists. split; [reflexivity|]. split.
    + unfold lacks, getShowLevelAxis, getSegmentsLevelAxis.
      destruct (this_dataView this) as [dv|]; [|split; reflexivity].
      destruct (objects (metadata dv)) as [objs|]; [|split; reflexivity].
      intros ->. split; reflexivity.
    + intros dv objs levelAxis Hdv Hobjects HlevelAxis.
      unfold getShowLevelAxis, getSegmentsLevelAxis.
      rewrite Hdv, Hobjects, HlevelAxis.
      split; [destruct (levelAxis_show levelAxis); reflexivity | reflexivity].
  - intros Hnodes Hcategory Hlevel. unfold enumerateObjectInstances.
    apply String.eqb_neq in Hnodes, Hcategory, Hlevel.
    now rewrite Hnodes, Hcategory, Hlevel.
  - intros previous options dataView others Hviews Hupdate.
    exact (update_stores_dataView previous options Hviews Hupdate).
Qed.

(** After an update with the objects
    [{nodes: {show: true, sizeFactor: 7}, categoryAxis: {show: false},
      levelAxis: {show: true}}] the pane shows these values, 4 for the
    segments left out, and nothing for an unknown object name. *)
Lemma enumerateObjectInstances_echo_witness :
  exists this,
    update (init sample_palette)
      (sample_options (dataView_with_objects objects_configured)) = Done this
    /\ enumerateObjectInstances this "nodes"
       = [{| objectName := "nodes"; instance_displayName := "Nodes"; selector := None;
             properties := [("show", PBoolean true); ("sizeFactor", PNumber 7)] |}]
    /\ enumerateObjectInstances this "categoryAxis"
       = [{| objectName := "categoryAxis"; instance_displayName := "Category axis";
             selector := None;
             properties := [("show", PBoolean false)] |}]
    /\ enumerateObjectInstances this "levelAxis"
       = [{| objectName := "levelAxis"; instance_displayName := "Level axis";
             selector := None;
             properties := [("show", PBoolean true); ("segments", PNumber 4)] |}]
    /\ enumerateObjectInstances this "general" = [].
Proof.
  pose proof (@update_rendered (init sample_palette)
                (sample_options (dataView_with_objects objects_configured))
                (dataView_with_objects objects_configured) []
                {| cat_source := {| col_displayName := "Category" |};
                   cat_values := ["a"; "b"] |} eq_refl eq_refl) as Hupdate.
  eexists. split; [exact Hupdate|].
  match type of Hupdate with _ = Done ?t => set (this := t) end.
  split; [|split; [|split]].
  - destruct (enumerateObjectInstances_echo this "nodes") as (Hnodes & _).
    destruct (Hnodes eq_refl) as (show & sizeFactor & -> & _ & Hecho).
    destruct (Hecho _ _ _ eq_refl eq_refl eq_refl) as [-> ->]. reflexivity.
  - destruct (enumerateObjectInstances_echo this "categoryAxis") as (_ & Hcategory & _).
    destruct (Hcategory eq_refl) as (show & -> & _ & Hecho).
    rewrite (Hecho _ _ _ eq_refl eq_refl eq_refl). reflexivity.
  - destruct (enumerateObjectInstances_echo this "levelAxis") as (_ & _ & Hlevel & _).
    destruct (Hlevel eq_refl) as (show & segments & -> & _ & Hecho).
    destruct (Hecho _ _ _ eq_refl eq_refl eq_refl) as [-> ->]. reflexivity.
  - apply enumerateObjectInstances_echo; intros H; discriminate H.
Defined.

(** ** Updates without a data view *)

(** C9. If [update] is called with [options.dataViews] missing or without
    a first element, it returns at once and the whole state of the visual
    (stored data view, data, settings and drawn scene) is unchanged. *)
Theorem update_without_dataView (this : RadarChart) (options : VisualUpdateOptions) :
  dataViews options = None \/ dataViews options = Some [] ->
  update this options = Done this.
Proof.
  intros [Hviews | Hviews]; unfold update; rewrite Hviews; reflexivity.
Qed.

(** After a first render, a call without data views leaves the visual
    as the render left it. *)
Lemma update_without_dataView_witness :
  exists this,
    update (init sample_palette) (sample_options dataView_two_by_two) = Done this
    /\ update this options_without_dataViews = Done this.
Proof.
  eexists. split.
  - apply (@update_rendered (init sample_palette) (sample_options dataView_two_by_two)
             dataView_two_by_two []
             {| cat_source := {| col_displayName := "Category" |};
                cat_values := ["a"; "b"] |}); reflexivity.
  - apply update_without_dataView. left. reflexivity.
Defined.

(** ** Numbers: loop counts, [d3.max] and the period of the angle *)

(** [iterations bound] is the number of indices [j = 0, 1, ...] with
    [j < bound]. *)
Lemma iterations_spec (bound : R) (j : nat) :
  j < iterations bound <-> (INR j < bound)%R.
Proof.
  unfold iterations.
  destruct (base_Int_part (- bound)) as [Hlow Hhigh].
  set (z := Int_part (- bound)) in *.
  rewrite INR_IZR_INZ.
  split.
  - intros Hj.
    assert (Hz : (Z.of_nat j < - z)%Z) by lia.
    assert (Hz' : (Z.of_nat j <= - z - 1)%Z) by lia.
    apply IZR_le in Hz'. rewrite minus_IZR, opp_IZR in Hz'. lra.
  - intros Hj.
    assert (Hz : (IZR (Z.of_nat j) < IZR (- z))%R) by (rewrite opp_IZR; lra).
    apply lt_IZR in Hz. lia.
Qed.

Lemma nat_eq_by_lt (n m : nat) : (forall j, j < n <-> j < m) -> n = m.
Proof.
  intros H.
  destruct (Nat.lt_trichotomy n m) as [Hlt | [Heq | Hgt]]; [|exact Heq|].
  - apply H in Hlt. lia.
  - apply H in Hgt. lia.
Qed.

Lemma iterations_INR (n : nat) : iterations (INR n) = n.
Proof.
  apply nat_eq_by_lt. intros j. rewrite iterations_spec.
  split; [apply INR_lt | apply lt_INR].
Qed.

Lemma iterations_minus_1 (bound : R) : iterations (bound - 1) = iterations bound - 1.
Proof.
  apply nat_eq_by_lt. intros j. rewrite iterations_spec.
  assert (Hsucc : (S j < iterations bound) <-> (INR (S j) < bound)%R)
    by apply iterations_spec.
  rewrite S_INR in Hsucc.
  split; intros Hj.
  - assert (Hnext : (INR j + 1 < bound)%R) by lra. apply Hsucc in Hnext. lia.
  - assert (Hnext : S j < iterations bound) by lia. apply Hsucc in Hnext. lra.
Qed.

Lemma fold_max_spec (rest : list R) :
  forall a,
    let m := fold_left (fun a b => if Rlt_dec a b then b else a) rest a in
    (a <= m)%R /\ (forall x, In x rest -> (x <= m)%R) /\ (m = a \/ In m rest).
Proof.
  induction rest as [|b rest IH]; intros a; cbn [fold_left].
  - split; [lra|]. split; [intros x []|]. now left.
  - destruct (Rlt_dec a b) as [Hlt | Hge].
    + destruct (IH b) as (Hb & Hrest & Hin).
      split; [lra|]. split.
      * intros x [<- | Hx]; [exact Hb | now apply Hrest].
      * right. destruct Hin as [-> | Hin]; [now left | now right].
    + destruct (IH a) as (Ha & Hrest & Hin).
      split; [exact Ha|]. split.
      * intros x [<- | Hx]; [lra | now apply Hrest].
      * destruct Hin as [-> | Hin]; [now left | right; now right].
Qed.

(** [d3.max] of a non-empty array is an element of the array that no
    element exceeds. *)
Lemma d3_max_spec (array : list R) :
  array <> [] ->
  exists m, d3_max array = Some m /\ In m array /\ forall x, In x array -> (x <= m)%R.
Proof.
  destruct array as [|a rest]; [congruence|]. intros _.
  destruct (fold_max_spec rest a) as (Ha & Hrest & Hin).
  eexists. split; [reflexivity|]. split.
  - destruct Hin as [-> | Hin]; [now left | now right].
  - intros x [<- | Hx]; [exact Ha | now apply Hrest].
Qed.

(** The angle of the index [s * n + c] differs from the angle of [c] by
    [s] full turns. *)
Lemma angle_turns (settings : RadarChartSettings) (s c : nat) :
  catTotal settings <> 0 ->
  angle settings (s * catTotal settings + c)
  = (angle settings c + 2 * INR s * PI)%R.
Proof.
  intros Hn. unfold angle, TwoPI. rewrite plus_INR, mult_INR.
  field. now apply not_0_INR.
Qed.

Lemma sin_angle_turns (settings : RadarChartSettings) (s c : nat) :
  catTotal settings <> 0 ->
  sin (angle settings (s * catTotal settings + c)) = sin (angle settings c).
Proof.
  intros Hn. rewrite angle_turns by exact Hn. apply sin_period.
Qed.

Lemma cos_angle_turns (settings : RadarChartSettings) (s c : nat) :
  catTotal settings <> 0 ->
  cos (angle settings (s * catTotal settings + c)) = cos (angle settings c).
Proof.
  intros Hn. rewrite angle_turns by exact Hn. apply cos_period.
Qed.

(** ** The settings and the data of an update *)

Lemma point_scaled_by (settings : RadarChartSettings) (m : R) (p : RadarChartDataPoint)
    (i : nat) :
  maxValue settings = Some m ->
  point_x settings p i = scaled_by settings m p i sin
  /\ point_y settings p i = scaled_by settings m p i cos.
Proof.
  intros Hmax. unfold point_x, point_y, scaled_by, angle, TwoPI, Factor.
  rewrite Hmax.
  destruct (catTotal settings) as [|n]; [destruct (Req_dec_T m 0); split; reflexivity|].
  destruct (Req_dec_T m 0); [split; reflexivity|].
  split; f_equal; ring.
Qed.

(** C2. For every update call whose converted data has a non-empty
    [values] list, [settings.maxValue] is the maximum of [p.value] over
    all data points [p] of [data.values], and it is the value that scales
    every radial position: the circle of each data point and each vertex
    of each polygon in the data group are drawn at
    [radius * (1 - max(p.value, 0) / m * sin(i * 2π / catTotal))] and the
    same with the cosine, with that maximum [m] as the divisor and [i] the
    index the point is bound at. *)
Theorem update_maxValue (this : RadarChart) (options : VisualUpdateOptions)
    (dataView : DataView) (others : list DataView)
    (result : RadarChartData) (reads : list ArrayRead) :
  dataViews options = Some (dataView :: others) ->
  converter dataView (this_colors this) [] = Ok (result, reads) ->
  values result <> [] ->
  exists this' settings m,
    update this options = Done this'
    /\ this_data this' = Some result
    /\ this_settings this' = Some settings
    /\ maxValue settings = Some m
    /\ In m (map value (values result))
    /\ (forall p, In p (values result) -> (value p <= m)%R)
    /\ (truthy (getShowNodes (Some dataView)) = true ->
        forall k p,
          nth_error (values result) k = Some p ->
          exists r alt fill,
            nth_error (g_children (dataGraphicsContext this')) (length (series result) + k)
            = Some (SvgCircle r alt (scaled_by settings m p k sin)
                      (scaled_by settings m p k cos) fill))
    /\ (forall j serie i p,
          nth_error (series result) j = Some serie ->
          nth_error (data serie) i = Some p ->
          exists class stroke points fill,
            nth_error (g_children (dataGraphicsContext this')) j
            = Some (SvgPolygon class stroke points fill)
            /\ nth_error points i
               = Some (scaled_by settings m p i sin, scaled_by settings m p i cos)).
Proof.
  intros Hviews Hconv Hvalues.
  destruct (converter_inv _ _ _ Hconv) as (category & Hcategory & ->).
  set (result := converted dataView (this_colors this) category) in *.
  set (settings := settings_of dataView (viewport options) result).
  destruct (d3_max_spec (array := map value (values result))) as (m & Hmax & Hin & Hupper).
  { intros Hnil. apply map_eq_nil in Hnil. contradiction. }
  exists (rendered this (viewport options) dataView result), settings, m.
  split; [exact (update_rendered this options Hviews Hcategory)|].
  split; [reflexivity|]. split; [reflexivity|]. split; [exact Hmax|].
  split; [exact Hin|]. split; [intros p Hp; apply Hupper; now apply in_map|].
  cbn [rendered dataGraphicsContext g_children]. unfold data_scene. fold settings.
  split.
  - intros Hshow k p Hk. rewrite Hshow.
    rewrite nth_error_app2 by (rewrite mapi_length; lia).
    rewrite mapi_length, Nat.add_comm, Nat.add_sub.
    rewrite mapi_nth_error, Hk. cbn [option_map Nat.add]. unfold node.
    destruct (@point_scaled_by settings m p k Hmax) as [-> ->]. eauto.
  - intros j serie i p Hj Hi.
    assert (Hlt : j < length (series result)) by (apply nth_error_Some; congruence).
    rewrite nth_error_app1 by (rewrite mapi_length; exact Hlt).
    rewrite mapi_nth_error, Hj. cbn [option_map Nat.add]. unfold polygon_of.
    do 4 eexists. split; [reflexivity|].
    assert (Hlti : i < length (data serie))
      by (apply nth_error_Some; congruence).
    rewrite nth_error_app1 by (rewrite mapi_length; exact Hlti).
    rewrite mapi_nth_error, Hi. cbn [option_map Nat.add]. unfold vertex.
    destruct (@point_scaled_by settings m p i Hmax) as [-> ->]. reflexivity.
Qed.

(** C4, as amended.  Every call to [update] whose first data view the
    converter accepts (it has a categorical with a category column)
    recomputes the data (with the converter) and the settings from that
    data view and the viewport alone: two visuals with the same colour
    palette, whatever they rendered before, end with the same data,
    settings, stored data view and scene, and what
    [enumerateObjectInstances] then echoes is read from that data view. *)
Theorem update_recomputes (this1 this2 : RadarChart) (options : VisualUpdateOptions)
    (dataView : DataView) (others : list DataView) (category : DataViewCategoryColumn) :
  dataViews options = Some (dataView :: others) ->
  category_of dataView = Some category ->
  this_colors this1 = this_colors this2 ->
  exists this1' this2' data reads,
    update this1 options = Done this1'
    /\ update this2 options = Done this2'
    /\ converter dataView (this_colors this1) [] = Ok (data, reads)
    /\ this_data this1' = Some data
    /\ this_data this2' = Some data
    /\ this_settings this1' = Some (settings_of dataView (viewport options) data)
    /\ this_settings this2' = Some (settings_of dataView (viewport options) data)
    /\ this_dataView this1' = Some dataView
    /\ this_dataView this2' = Some dataView
    /\ g_children (axisGraphicsContext this1') = g_children (axisGraphicsContext this2')
    /\ g_children (dataGraphicsContext this1') = g_children (dataGraphicsContext this2')
    /\ (forall name,
          enumerateObjectInstances this1' name
          = enumerateObjectInstances (with_dataView (init (this_colors this1)) dataView)
              name).
Proof.
  intros Hviews Hcategory Hcolors.
  destruct (@converter_converted dataView (this_colors this1) category [] Hcategory)
    as [reads Hconv].
  exists (rendered this1 (viewport options) dataView
            (converted dataView (this_colors this1) category)),
    (rendered this2 (viewport options) dataView
       (converted dataView (this_colors this2) category)),
    (converted dataView (this_colors this1) category), reads.
  split; [exact (update_rendered this1 options Hviews Hcategory)|].
  split; [exact (update_rendered this2 options Hviews Hcategory)|].
  split; [exact Hconv|].
  unfold rendered. rewrite <- Hcolors.
  do 8 (split; [reflexivity|]).
  intros name. reflexivity.
Qed.

(** The two-by-two sample has the values 1, 2, 3, 4: its maximum is 4, and
    the circle of the first point, with the value 1 at index 0, is drawn
    with the quotient 1 / 4. *)
Lemma update_maxValue_witness :
  exists this' settings r alt fill,
    update (init sample_palette) (sample_options dataView_two_by_two) = Done this'
    /\ this_settings this' = Some settings
    /\ maxValue settings = Some 4%R
    /\ nth_error (g_children (dataGraphicsContext this')) 2
       = Some (SvgCircle r alt
                 (Some (radius settings
                        * (1 - (Rmax 1 0 / 4) * sin (INR 0 * (2 * PI) / INR 2)))%R)
                 (Some (radius settings
                        * (1 - (Rmax 1 0 / 4) * cos (INR 0 * (2 * PI) / INR 2)))%R)
                 fill).
Proof.
  destruct (@converter_converted dataView_two_by_two sample_palette
              {| cat_source := {| col_displayName := "Category" |};
                 cat_values := ["a"; "b"] |} [] eq_refl)
    as [reads Hconv].
  destruct (@update_maxValue (init sample_palette) (sample_options dataView_two_by_two)
              dataView_two_by_two [] _ reads eq_refl Hconv)
    as (this' & settings & m & Hupdate & _ & Hsettings & Hmax & Hin & Hupper
        & Hnodes & _).
  { discriminate. }
  assert (Hm : m = 4%R).
  { assert (H4 : (4 <= m)%R).
    { apply (Hupper (point_of sample_palette 1 4%R 1)).
      right. right. right. left. reflexivity. }
    cbn in Hin. destruct Hin as [<- | [<- | [<- | [<- | []]]]]; lra. }
  subst m.
  destruct (Hnodes eq_refl 0 _ eq_refl) as (r & alt & fill & Hnode).
  assert (Htotal : catTotal settings = 2).
  { rewrite (@update_rendered (init sample_palette) (sample_options dataView_two_by_two)
               dataView_two_by_two []
               {| cat_source := {| col_displayName := "Category" |};
                  cat_values := ["a"; "b"] |} eq_refl eq_refl) in Hupdate.
    injection Hupdate as <-. cbn [rendered this_settings] in Hsettings.
    now injection Hsettings as <-. }
  unfold scaled_by in Hnode. rewrite Htotal in Hnode.
  destruct (Req_dec_T 4 0) as [Hzero | _]; [lra|].
  exists this', settings, r, alt, fill.
  split; [exact Hupdate|]. split; [exact Hsettings|]. split; [exact Hmax|].
  exact Hnode.
Defined.

(** With a first data view that has no categorical the call throws: no
    data and no settings are computed. *)
Lemma recomputes_counterexample :
  ~ recomputes (init sample_palette) (sample_options dataView_without_categorical).
Proof.
  intros Hstated.
  destruct (Hstated dataView_without_categorical [] eq_refl)
    as (this' & result & reads & Hupdate & _).
  rewrite (@update_throws (init sample_palette)
             (sample_options dataView_without_categorical)
             dataView_without_categorical [] eq_refl eq_refl) in Hupdate.
  discriminate.
Qed.

(** A fresh visual and one that already stores another data view end in
    the same data and settings. *)
Lemma update_recomputes_witness :
  exists this1' this2',
    update (init sample_palette) (sample_options dataView_two_by_two) = Done this1'
    /\ update (with_dataView (init sample_palette) dataView_empty_first)
         (sample_options dataView_two_by_two) = Done this2'
    /\ this_data this1' = this_data this2'
    /\ this_settings this1' = this_settings this2'.
Proof.
  destruct (@update_recomputes (init sample_palette)
              (with_dataView (init sample_palette) dataView_empty_first)
              (sample_options dataView_two_by_two) dataView_two_by_two []
              {| cat_source := {| col_displayName := "Category" |};
                 cat_values := ["a"; "b"] |} eq_refl eq_refl eq_refl)
    as (this1' & this2' & data & reads & Hupdate1 & Hupdate2 & _
        & Hdata1 & Hdata2 & Hsettings1 & Hsettings2 & _).
  exists this1', this2'. split; [exact Hupdate1|]. split; [exact Hupdate2|].
  split; congruence.
Defined.

(** ** The coordinates of the data points *)

(** When every value column has [n] values, the point at position [k] of
    the flattened list is the point of series [k / n] and category
    [k mod n]. *)
Lemma flat_position (colors : IDataColorPalette) (n : nat)
    (cols : list DataViewValueColumn) :
  (forall serie, In serie cols -> length (col_values serie) = n) ->
  forall i k p,
    nth_error (concat (mapi (points_of colors) i cols)) k = Some p ->
    i <= seriesIndex p /\ categoryIndex p < n
    /\ k = (seriesIndex p - i) * n + categoryIndex p.
Proof.
  induction cols as [|serie cols IH]; intros Hlength i k p Hk.
  - destruct k; discriminate.
  - cbn [mapi concat] in Hk.
    assert (Hserie : length (points_of colors serie i) = n).
    { unfold points_of. rewrite mapi_length. apply Hlength. now left. }
    destruct (Nat.lt_ge_cases k n) as [Hlt | Hge].
    + rewrite nth_error_app1 in Hk by lia.
      unfold points_of in Hk. rewrite mapi_nth_error in Hk.
      destruct (nth_error (col_values serie) k) as [x|]; [|discriminate].
      injection Hk as <-. cbn [point_of seriesIndex categoryIndex].
      rewrite Nat.sub_diag. lia.
    + rewrite nth_error_app2 in Hk by lia. rewrite Hserie in Hk.
      apply IH in Hk; [|intros s Hs; apply Hlength; now right].
      destruct Hk as (Hi & Hc & Hk).
      split; [lia|]. split; [exact Hc|].
      replace (seriesIndex p - i) with (S (seriesIndex p - S i)) by lia.
      cbn [Nat.mul]. lia.
Qed.

Lemma clamped_node (settings : RadarChartSettings) (p : RadarChartDataPoint) (s : nat) :
  catTotal settings <> 0 ->
  point_x settings p (s * catTotal settings + categoryIndex p) = clamped_x settings p
  /\ point_y settings p (s * catTotal settings + categoryIndex p) = clamped_y settings p.
Proof.
  intros Hn. unfold point_x, point_y, clamped_x, clamped_y, over_maxValue.
  rewrite sin_angle_turns, cos_angle_turns by exact Hn.
  destruct (maxValue settings) as [m|]; [|split; reflexivity].
  destruct (catTotal settings); [split; reflexivity|].
  destruct (Req_dec_T m 0); [split; reflexivity|].
  unfold Factor. split; f_equal; ring.
Qed.

Lemma clamped_vertex (settings : RadarChartSettings) (p : RadarChartDataPoint) :
  vertex settings p (categoryIndex p) = (clamped_x settings p, clamped_y settings p).
Proof.
  unfold vertex, point_x, point_y, clamped_x, clamped_y, over_maxValue.
  destruct (maxValue settings) as [m|]; [|reflexivity].
  destruct (catTotal settings); [reflexivity|].
  destruct (Req_dec_T m 0); [reflexivity|].
  unfold Factor. do 2 f_equal; f_equal; ring.
Qed.

(** C1, as amended.  With as many values in every value column as there
    are categories, every data point [p] with category index [i] is shown,
    as a node and as a vertex of the polygon of its series, at
    [radius * (1 - (max(p.value, 0) / maxValue) * sin(i * 2π / catTotal))]
    and
    [radius * (1 - (max(p.value, 0) / maxValue) * cos(i * 2π / catTotal))]. *)
Theorem update_coordinates (this : RadarChart) (options : VisualUpdateOptions)
    (dataView : DataView) (others : list DataView) (category : DataViewCategoryColumn) :
  dataViews options = Some (dataView :: others) ->
  category_of dataView = Some category ->
  (forall serie, In serie (columns_of dataView) ->
     length (col_values serie) = length (cat_values category)) ->
  exists this',
    update this options = Done this'
    /\ rendered_at clamped_x clamped_y this'.
Proof.
  intros Hviews Hcategory Hlength.
  eexists. split; [exact (update_rendered this options Hviews Hcategory)|].
  intros settings result Hsettings Hdata.
  cbn [rendered this_settings this_data] in Hsettings, Hdata.
  injection Hsettings as <-. injection Hdata as <-.
  cbn [rendered this_dataView dataGraphicsContext g_children].
  set (result := converted dataView (this_colors this) category).
  set (settings := settings_of dataView (viewport options) result).
  unfold data_scene. split.
  - intros Hshow k p Hk. rewrite Hshow.
    rewrite nth_error_app2 by (rewrite mapi_length; lia).
    rewrite mapi_length, Nat.add_comm, Nat.add_sub.
    rewrite mapi_nth_error, Hk. cbn [option_map Nat.add]. unfold node.
    destruct (@flat_position (this_colors this) _ _ Hlength 0 k p Hk) as (_ & Hc & ->).
    rewrite Nat.sub_0_r.
    destruct (@clamped_node settings p (seriesIndex p)) as [Hx Hy].
    { cbn [settings settings_of catTotal result converted categories]. lia. }
    cbn [settings settings_of catTotal result converted categories] in Hx, Hy.
    rewrite Hx, Hy. eauto.
  - intros j serie i p Hj Hi.
    assert (Hlt : j < length (series result)) by (apply nth_error_Some; congruence).
    rewrite nth_error_app1 by (rewrite mapi_length; exact Hlt).
    rewrite mapi_nth_error, Hj. cbn [option_map Nat.add]. unfold polygon_of.
    do 4 eexists. split; [reflexivity|].
    assert (Hlti : i < length (data serie)) by (apply nth_error_Some; congruence).
    rewrite nth_error_app1 by (rewrite mapi_length; exact Hlti).
    rewrite mapi_nth_error, Hi. cbn [option_map Nat.add].
    cbn [result converted series] in Hj. apply series_nth_error in Hj.
    destruct Hj as (c & col & _ & _ & -> & _).
    cbn [serie_of data] in Hi. unfold points_of in Hi.
    rewrite mapi_nth_error in Hi.
    destruct (nth_error (col_values col) i) as [x|]; [|discriminate].
    injection Hi as <-. cbn [Nat.add].
    f_equal. exact (clamped_vertex settings (point_of (this_colors this) (0 + c) x i)).
Qed.

Lemma d3_max_negative_sample : d3_max [1; -1; 0; 0]%R = Some 1%R.
Proof.
  destruct (d3_max_spec (array := [1; -1; 0; 0]%R)) as (m & -> & Hin & Hupper);
    [discriminate|].
  f_equal.
  assert (H1 : (1 <= m)%R) by (apply Hupper; now left).
  destruct Hin as [<- | [<- | [<- | [<- | []]]]]; lra.
Qed.

(** The sample with the value -1 at category 1: the vertex of that point
    is drawn at x = radius, not at x = radius * (1 + 1). *)
Lemma unclamped_coordinates_counterexample :
  ~ (forall this',
       update (init sample_palette) (sample_options dataView_negative) = Done this' ->
       rendered_at unclamped_x unclamped_y this').
Proof.
  intros Hstated.
  specialize (Hstated _
    (@update_rendered (init sample_palette) (sample_options dataView_negative)
       dataView_negative []
       {| cat_source := {| col_displayName := "Category" |};
          cat_values := ["a"; "b"; "c"; "d"] |} eq_refl eq_refl)).
  destruct (Hstated _ _ eq_refl eq_refl) as [_ Hvertex].
  destruct (Hvertex 0 _ 1 _ eq_refl eq_refl)
    as (class & stroke & points & fill & Hpolygon & Hpoint).
  cbn [rendered dataGraphicsContext g_children data_scene converted series
       columns_of dataView_negative sample_dataView categorical dv_values columns
       mapi concat series_of sample_column col_values app nth_error] in Hpolygon.
  injection Hpolygon as _ _ <- _.
  cbn [polygon_of serie_of data points_of sample_column col_values mapi app nth_error]
    in Hpoint.
  injection Hpoint as Hx _.
  unfold point_x, unclamped_x, over_maxValue in Hx.
  cbn [settings_of maxValue catTotal radius converted categories values cat_values
       length columns_of dataView_negative sample_dataView categorical dv_values
       columns mapi concat points_of sample_column col_values app map point_of value
       categoryIndex] in Hx.
  rewrite d3_max_negative_sample in Hx.
  destruct (Req_dec_T 1 0) as [Hzero | _]; [lra|].
  injection Hx as Hx.
  match type of Hx with
  | context [sin ?a] =>
      replace a with (PI / 2)%R in Hx by (unfold angle, TwoPI; cbn; field)
  end.
  rewrite sin_PI2 in Hx.
  rewrite Rmax_right in Hx by lra.
  unfold Factor, MarginFactor in Hx.
  rewrite Rmin_left in Hx by lra.
  lra.
Qed.

Lemma update_coordinates_witness :
  exists this',
    update (init sample_palette) (sample_options dataView_negative) = Done this'
    /\ rendered_at clamped_x clamped_y this'.
Proof.
  apply (@update_coordinates (init sample_palette) (sample_options dataView_negative)
           dataView_negative []
           {| cat_source := {| col_displayName := "Category" |};
              cat_values := ["a"; "b"; "c"; "d"] |}); try reflexivity.
  intros serie [<- | []]. reflexivity.
Defined.

(** ** The level axis *)

Lemma nested_loops_nth_error {B} (f : nat -> nat -> B) (c : nat) :
  forall n a j i,
    j < n -> i < c ->
    nth_error (flat_map (fun j => map (f j) (seq 0 c)) (seq a n)) (j * c + i)
    = Some (f (a + j) i).
Proof.
  induction n as [|n IH]; intros a j i Hj Hi; [lia|].
  cbn [seq flat_map].
  destruct j as [|j].
  - rewrite nth_error_app1 by (rewrite length_map, length_seq; lia).
    cbn [Nat.mul Nat.add]. rewrite nth_error_map, nth_error_seq.
    apply Nat.ltb_lt in Hi. rewrite Hi. cbn [option_map Nat.add].
    now rewrite Nat.add_0_r.
  - rewrite nth_error_app2 by (rewrite length_map, length_seq; lia).
    rewrite length_map, length_seq.
    replace (S j * c + i - c) with (j * c + i) by lia.
    rewrite IH by lia. now rewrite Nat.add_succ_comm.
Qed.

Lemma level_rings_length (settings : RadarChartSettings) :
  length (level_rings settings) = iterations (levels settings) * catTotal settings.
Proof.
  unfold level_rings.
  rewrite flat_map_constant_length with (c := catTotal settings).
  - now rewrite length_seq.
  - intros j _. now rewrite length_map, length_seq.
Qed.

Lemma level_labels_length (settings : RadarChartSettings) :
  length (level_labels settings) = iterations (levels settings) - 1.
Proof.
  unfold level_labels. now rewrite length_map, length_seq, iterations_minus_1.
Qed.

(** The ends of a ring segment lie on the circle of radius
    [radius * (j + 1) / levels] around the centre of the viewport. *)
Lemma ring_line_on_circle (settings : RadarChartSettings) (j i : nat) :
  on_circle settings (radius settings * (INR j + 1) / levels settings)
    (ring_line settings j i).
Proof.
  unfold on_circle, ring_line, levelFactor, Factor.
  set (rho := (radius settings * ((INR j + 1) / levels settings))%R).
  replace (radius settings * (INR j + 1) / levels settings)%R with rho
    by (unfold rho, Rdiv; ring).
  split.
  - replace (rho * (1 - 1 * sin (angle settings i))
             + (width settings / 2 - rho) - width settings / 2)%R
      with (- (rho * sin (angle settings i)))%R by ring.
    replace (rho * (1 - 1 * cos (angle settings i))
             + (height settings / 2 - rho) - height settings / 2)%R
      with (- (rho * cos (angle settings i)))%R by ring.
    rewrite <- !Rsqr_neg, !Rsqr_mult, <- Rmult_plus_distr_l, sin2_cos2. ring.
  - replace (rho * (1 - 1 * sin (angle settings (i + 1)))
             + (width settings / 2 - rho) - width settings / 2)%R
      with (- (rho * sin (angle settings (i + 1))))%R by ring.
    replace (rho * (1 - 1 * cos (angle settings (i + 1)))
             + (height settings / 2 - rho) - height settings / 2)%R
      with (- (rho * cos (angle settings (i + 1))))%R by ring.
    rewrite <- !Rsqr_neg, !Rsqr_mult, <- Rmult_plus_distr_l, sin2_cos2. ring.
Qed.

(** C6, as amended.  When the level axis is shown, the axis group holds
    first [n * catTotal] ring segments and then [n - 1] level labels (none
    for [n = 0]), where [n] is the number of indices [j = 0, 1, ...] below
    [settings.levels], which is [settings.levels] itself when that is a
    natural number.  Ring [j] lies at the distance
    [radius * (j + 1) / levels] from the centre, label [j] shows
    [(j + 1) * maxValue / levels] in the configured level format, and
    [settings.levels] is the configured segments property (or its
    default). *)
Theorem update_level_axis (this : RadarChart) (options : VisualUpdateOptions)
    (dataView : DataView) (others : list DataView) (category : DataViewCategoryColumn) :
  dataViews options = Some (dataView :: others) ->
  category_of dataView = Some category ->
  truthy (getShowLevelAxis (Some dataView)) = true ->
  exists this' settings n,
    update this options = Done this'
    /\ this_settings this' = Some settings
    /\ levels settings = getSegmentsLevelAxis (Some dataView)
    /\ (forall objs levelAxis segments,
          objects (metadata dataView) = Some objs ->
          obj_levelAxis objs = Some levelAxis ->
          levelAxis_segments levelAxis = Some segments ->
          levels settings = segments)
    /\ levelsFormat settings = getFormatLevelAxis (Some dataView)
    /\ (forall j, j < n <-> (INR j < levels settings)%R)
    /\ (forall k, levels settings = INR k -> n = k)
    /\ g_children (axisGraphicsContext this')
       = level_rings settings ++ level_labels settings
         ++ (if truthy (getShowCategoryAxis (Some dataView))
             then category_axis settings else [])
    /\ length (level_rings settings) = n * catTotal settings
    /\ length (level_labels settings) = n - 1
    /\ (forall j i,
          j < n -> i < catTotal settings ->
          nth_error (level_rings settings) (j * catTotal settings + i)
          = Some (ring_line settings j i)
          /\ on_circle settings (radius settings * (INR j + 1) / levels settings)
               (ring_line settings j i))
    /\ (forall j,
          j < n - 1 ->
          exists x y size transform,
            nth_error (level_labels settings) j
            = Some (SvgText x y size transform
                      (LevelText (levelsFormat settings)
                         (option_map
                            (fun m => ((INR j + 1) * m / levels settings)%R)
                            (maxValue settings))))).
Proof.
  intros Hviews Hcategory Hshow.
  set (result := converted dataView (this_colors this) category).
  set (settings := settings_of dataView (viewport options) result).
  exists (rendered this (viewport options) dataView result), settings,
    (iterations (levels settings)).
  split; [exact (update_rendered this options Hviews Hcategory)|].
  split; [reflexivity|]. split; [reflexivity|].
  split.
  { intros objs levelAxis segments Hobjects HlevelAxis Hsegments.
    cbn [settings settings_of levels]. unfold getSegmentsLevelAxis.
    now rewrite Hobjects, HlevelAxis, Hsegments. }
  split; [reflexivity|].
  split; [intros j; apply iterations_spec|].
  split; [intros k ->; apply iterations_INR|].
  split.
  { cbn [rendered axisGraphicsContext g_children]. unfold axis_scene.
    rewrite Hshow. now rewrite <- app_assoc. }
  split; [apply level_rings_length|].
  split; [apply level_labels_length|].
  split.
  - intros j i Hj Hi. split; [|apply ring_line_on_circle].
    unfold level_rings. now rewrite nested_loops_nth_error.
  - intros j Hj. unfold level_labels.
    rewrite nth_error_map, nth_error_seq, iterations_minus_1.
    apply Nat.ltb_lt in Hj. rewrite Hj. cbn [option_map Nat.add].
    unfold level_label. eauto.
Qed.

Lemma iterations_five_halves : iterations (5 / 2) = 3.
Proof.
  apply nat_eq_by_lt. intros j. rewrite iterations_spec. split.
  - intros Hj. destruct (Nat.lt_ge_cases j 3) as [Hlt | Hge]; [exact Hlt|].
    apply le_INR in Hge. cbn in Hge. lra.
  - intros Hj. destruct j as [|[|[|j]]]; [cbn; lra | cbn; lra | cbn; lra | lia].
Qed.

(** With the segments property set to 2.5 and two categories the two
    loops draw 3 * 2 ring segments, not 2.5 * 2. *)
Lemma level_axis_counts_counterexample :
  ~ (forall this' settings,
       update (init sample_palette)
         (sample_options (dataView_with_objects (objects_segments (5 / 2)))) = Done this' ->
       this_settings this' = Some settings ->
       level_axis_counts settings).
Proof.
  intros Hstated.
  specialize (Hstated _ _
    (@update_rendered (init sample_palette)
       (sample_options (dataView_with_objects (objects_segments (5 / 2))))
       (dataView_with_objects (objects_segments (5 / 2))) []
       {| cat_source := {| col_displayName := "Category" |};
          cat_values := ["a"; "b"] |} eq_refl eq_refl) eq_refl).
  destruct Hstated as [Hrings _].
  rewrite level_rings_length in Hrings.
  cbn [settings_of levels catTotal getSegmentsLevelAxis dataView_with_objects
       sample_dataView metadata objects objects_segments obj_levelAxis
       levelAxis_segments converted categories cat_values length] in Hrings.
  rewrite iterations_five_halves in Hrings. cbn in Hrings. lra.
Qed.

(** With the default of 4 segments and two categories: 8 ring segments
    and 3 labels. *)
Lemma update_level_axis_witness :
  exists this' settings,
    update (init sample_palette) (sample_options dataView_two_by_two) = Done this'
    /\ this_settings this' = Some settings
    /\ length (level_rings settings) = 4 * catTotal settings
    /\ length (level_labels settings) = 3.
Proof.
  destruct (@update_level_axis (init sample_palette) (sample_options dataView_two_by_two)
              dataView_two_by_two []
              {| cat_source := {| col_displayName := "Category" |};
                 cat_values := ["a"; "b"] |} eq_refl eq_refl eq_refl)
    as (this' & settings & n & Hupdate & Hsettings & Hlevels & _ & _ & _ & Hnat & _
        & Hrings & Hlabels & _).
  assert (Hn : n = 4).
  { apply Hnat. rewrite Hlevels. cbn. lra. }
  subst n. exists this', settings. auto.
Defined.

(** ** The array reads of the converter *)

(** Under the precondition every read is in bounds, except possibly the
    reads of [categoryValues]: those are indexed by a series index or by a
    value index of some column. *)
Lemma converter_reads_safe (dataView : DataView) (category : DataViewCategoryColumn) :
  category_of dataView = Some category ->
  one_group_per_column dataView ->
  forall r,
    In r (converter_reads dataView) ->
    in_bounds r = true
    \/ (read_array r = "categoryValues"
        /\ read_length r = length (cat_values category)
        /\ (read_index r < length (columns_of dataView)
            \/ exists serie,
                 In serie (columns_of dataView)
                 /\ read_index r < length (col_values serie))).
Proof.
  unfold category_of, one_group_per_column, converter_reads, columns_of.
  destruct (categorical dataView) as [categorical|]; [|discriminate].
  destruct (dv_categories categorical) as [[|category0 others]|]; try discriminate.
  intros [= ->] Hgroups r [<- | Hr]; [left; reflexivity|].
  destruct (dv_values categorical) as [cvalues|]; [|contradiction].
  apply in_concat in Hr. destruct Hr as (l & Hl & Hr).
  apply mapi_in in Hl. destruct Hl as (k & serie & Hk & ->).
  assert (Hlt : k < length (columns cvalues)) by (apply nth_error_Some; congruence).
  unfold series_reads in Hr. cbn [app Nat.add] in Hr.
  destruct Hr as [<- | [<- | [<- | Hr]]].
  - left. now apply Nat.ltb_lt.
  - left. apply Nat.ltb_lt. cbn [read_index read_length]. lia.
  - right. cbn [read_array read_index read_length]. auto.
  - apply in_concat in Hr. destruct Hr as (l & Hl & Hr).
    apply mapi_in in Hl. destruct Hl as (v & x & Hv & ->).
    assert (Hltv : v < length (col_values serie)) by (apply nth_error_Some; congruence).
    destruct Hr as [<- | [<- | []]].
    + right. cbn [read_array read_index read_length Nat.add].
      split; [reflexivity|]. split; [reflexivity|]. right.
      exists serie. split; [|exact Hltv]. eapply nth_error_In. exact Hk.
    + left. now apply Nat.ltb_lt.
Qed.

(** When there are no more value columns than category values and no
    value column is longer than the category column, every read of the
    converter is in bounds. *)
Lemma converter_reads_in_bounds (dataView : DataView) (category : DataViewCategoryColumn) :
  category_of dataView = Some category ->
  one_group_per_column dataView ->
  length (columns_of dataView) <= length (cat_values category) ->
  (forall serie, In serie (columns_of dataView) ->
     length (col_values serie) <= length (cat_values category)) ->
  forallb in_bounds (converter_reads dataView) = true.
Proof.
  intros Hcategory Hgroups Hcolumns Hvalues. apply forallb_forall. intros r Hr.
  destruct (converter_reads_safe dataView Hcategory Hgroups r Hr)
    as [Hin | (_ & Hlength & [Hindex | (serie & Hserie & Hindex)])];
    [exact Hin | |]; apply Nat.ltb_lt; rewrite Hlength.
  - lia.
  - apply Hvalues in Hserie. lia.
Qed.

(** C8, at a data view with one category value and two value columns.
    The data view meets the precondition (a categorical with a category
    column, one group per value column) and the converter returns, but in
    the round [seriesIndex = 1] it reads [categoryValues[1]], past the end
    of the one-element array. *)
Theorem converter_reads_past_categoryValues :
  category_of dataView_one_category
  = Some {| cat_source := {| col_displayName := "Category" |}; cat_values := ["a"] |}
  /\ one_group_per_column dataView_one_category
  /\ exists result reads,
       converter dataView_one_category sample_palette [] = Ok (result, reads)
       /\ In {| read_array := "categoryValues"; read_index := 1; read_length := 1 |} reads
       /\ in_bounds {| read_array := "categoryValues"; read_index := 1; read_length := 1 |}
          = false
       /\ forallb in_bounds reads = false.
Proof.
  split; [reflexivity|]. split; [reflexivity|].
  eexists. eexists. split.
  - apply (@converter_returns dataView_one_category sample_palette
             {| cat_source := {| col_displayName := "Category" |}; cat_values := ["a"] |}
             []).
    reflexivity.
  - split; [|split; reflexivity].
    cbn. do 8 right. left. reflexivity.
Qed.

(** * Further properties of the converter *)

(** X1. The converter throws a TypeError exactly when the data view has no
    categorical, or its categorical has no [categories] array or an empty
    one; in every other case it returns. *)
Theorem converter_throws_iff (dataView : DataView) (colors : IDataColorPalette)
    (reads : list ArrayRead) :
  converter dataView colors reads = TypeError
  <-> (categorical dataView = None
       \/ exists c,
            categorical dataView = Some c
            /\ (dv_categories c = None \/ dv_categories c = Some [])).
Proof.
  split.
  - intros Hthrows.
    destruct (category_of dataView) as [category|] eqn:Hcategory.
    + rewrite (converter_returns dataView colors reads Hcategory) in Hthrows.
      discriminate.
    + unfold category_of in Hcategory.
      destruct (categorical dataView) as [c|]; [|now left].
      right. exists c. split; [reflexivity|].
      destruct (dv_categories c) as [[|category others]|]; try discriminate; auto.
  - intros Hmissing. apply converter_throws. unfold category_of.
    destruct Hmissing as [-> | (c & -> & [-> | ->])]; reflexivity.
Qed.

(** X2. Without value columns ([categorical.values] undefined or empty)
    the converter returns no series and no data points, and the categories
    are the values of the first category column. *)
Theorem converter_without_columns (dataView : DataView) (colors : IDataColorPalette)
    (category : DataViewCategoryColumn) (reads : list ArrayRead) :
  category_of dataView = Some category ->
  columns_of dataView = [] ->
  exists reads',
    converter dataView colors reads
    = Ok ({| series := []; categories := cat_values category; values := [] |}, reads').
Proof.
  intros Hcategory Hcolumns.
  rewrite (converter_returns dataView colors reads Hcategory).
  unfold converted. rewrite Hcolumns. eexists. reflexivity.
Qed.

Lemma converter_without_columns_witness :
  exists reads',
    converter (sample_dataView None ["a"; "b"] []) sample_palette []
    = Ok ({| series := []; categories := ["a"; "b"]; values := [] |}, reads').
Proof.
  apply (@converter_without_columns (sample_dataView None ["a"; "b"] []) sample_palette
           {| cat_source := {| col_displayName := "Category" |};
              cat_values := ["a"; "b"] |} []); reflexivity.
Defined.

Lemma count_firstn_le {A} (f : A -> bool) (l : list A) :
  forall j j',
    j <= j' -> length (filter f (firstn j l)) <= length (filter f (firstn j' l)).
Proof.
  induction l as [|a l IH]; intros j j' Hle.
  - now rewrite !firstn_nil.
  - destruct j as [|j]; [cbn [firstn filter length]; lia|].
    destruct j' as [|j']; [lia|].
    cbn [firstn filter]. specialize (IH j j' ltac:(lia)).
    destruct (f a); cbn [length]; lia.
Qed.

Lemma string_of_nat_inj (a b : nat) : string_of_nat a = string_of_nat b -> a = b.
Proof.
  unfold string_of_nat. intros Heq.
  apply (f_equal NilEmpty.uint_of_string) in Heq.
  rewrite !NilEmpty.usu in Heq. injection Heq as Heq.
  now apply Unsigned.to_uint_inj.
Qed.

(** X3. The series are returned in the order of their value columns: a
    series further down the list has a greater [index], and no two series
    have the same [key]. *)
Theorem converter_series_ordered (dataView : DataView) (colors : IDataColorPalette)
    (reads reads' : list ArrayRead) (result : RadarChartData) :
  converter dataView colors reads = Ok (result, reads') ->
  forall k1 k2 s1 s2,
    k1 < k2 ->
    nth_error (series result) k1 = Some s1 ->
    nth_error (series result) k2 = Some s2 ->
    index s1 < index s2 /\ key s1 <> key s2.
Proof.
  intros Hconv k1 k2 s1 s2 Hlt H1 H2. apply converter_inv in Hconv.
  destruct Hconv as (category & _ & ->). cbn [converted series] in H1, H2.
  apply series_nth_error in H1, H2.
  destruct H1 as (j1 & serie1 & _ & _ & -> & ->).
  destruct H2 as (j2 & serie2 & _ & _ & -> & ->).
  cbn [serie_of index key Nat.add].
  assert (Hj : j1 < j2).
  { destruct (Nat.lt_ge_cases j1 j2) as [Hj | Hj]; [exact Hj|].
    pose proof (count_firstn_le nonempty_column (columns_of dataView) Hj). lia. }
  split; [exact Hj|].
  intros Hkey. cbn in Hkey. injection Hkey as Hkey.
  apply string_of_nat_inj in Hkey. lia.
Qed.

Lemma converter_series_ordered_witness :
  exists result reads s1 s2,
    converter dataView_two_by_two sample_palette [] = Ok (result, reads)
    /\ nth_error (series result) 0 = Some s1
    /\ nth_error (series result) 1 = Some s2
    /\ index s1 < index s2 /\ key s1 <> key s2.
Proof.
  destruct (@converter_converted dataView_two_by_two sample_palette
              {| cat_source := {| col_displayName := "Category" |};
                 cat_values := ["a"; "b"] |} [] eq_refl)
    as [reads Hconv].
  eexists. exists reads. do 2 eexists. split; [exact Hconv|].
  split; [reflexivity|]. split; [reflexivity|].
  apply (@converter_series_ordered _ _ _ _ _ Hconv 0 1); [lia | reflexivity | reflexivity].
Defined.

Lemma concat_mapi_length {A B} (f : A -> nat -> list B) (g : A -> nat) (l : list A) :
  (forall a i, length (f a i) = g a) ->
  forall i, length (concat (mapi f i l)) = list_sum (map g l).
Proof.
  intros Hf. induction l as [|a l IH]; intros i; [reflexivity|].
  cbn [mapi concat map list_sum]. now rewrite length_app, Hf, IH.
Qed.

(** X4. The converter makes one data point per value and one series per
    non-empty value column: [values] has as many points as the value
    columns have values together, and [series] has as many entries as
    there are non-empty value columns. *)
Theorem converter_counts (dataView : DataView) (colors : IDataColorPalette)
    (reads reads' : list ArrayRead) (result : RadarChartData) :
  converter dataView colors reads = Ok (result, reads') ->
  length (values result)
  = list_sum (map (fun serie => length (col_values serie)) (columns_of dataView))
  /\ length (series result) = length (filter nonempty_column (columns_of dataView))
  /\ length (series result) <= length (columns_of dataView).
Proof.
  intros Hconv. apply converter_inv in Hconv.
  destruct Hconv as (category & _ & ->). cbn [converted series values].
  assert (Hseries : forall i,
            length (concat (mapi (series_of colors (legend_of dataView)) i
                              (columns_of dataView)))
            = length (filter nonempty_column (columns_of dataView))).
  { induction (columns_of dataView) as [|serie cols IH]; intros i; [reflexivity|].
    cbn [mapi concat filter]. rewrite length_app, IH.
    unfold series_of, nonempty_column.
    destruct (col_values serie); reflexivity. }
  split; [|split].
  - apply concat_mapi_length. intros serie i. unfold points_of. apply mapi_length.
  - apply Hseries.
  - rewrite Hseries. apply filter_length_le.
Qed.

Lemma converter_counts_witness :
  exists result reads,
    converter dataView_empty_first sample_palette [] = Ok (result, reads)
    /\ length (values result) = 1
    /\ length (series result) = 1.
Proof.
  destruct (@converter_converted dataView_empty_first sample_palette
              {| cat_source := {| col_displayName := "Category" |};
                 cat_values := ["a"; "b"] |} [] eq_refl)
    as [reads Hconv].
  eexists. exists reads. split; [exact Hconv|].
  destruct (converter_counts _ _ _ Hconv) as (Hvalues & Hseries & _).
  split; [exact Hvalues | exact Hseries].
Defined.

(** X5. All series carry the same display name: the display name of the
    source of [categorical.values], or the empty string when that source
    is undefined. *)
Theorem converter_displayName (dataView : DataView) (colors : IDataColorPalette)
    (reads reads' : list ArrayRead) (result : RadarChartData) :
  converter dataView colors reads = Ok (result, reads') ->
  forall s,
    In s (series result) ->
    exists c cvalues,
      categorical dataView = Some c
      /\ dv_values c = Some cvalues
      /\ displayName s
         = match values_source cvalues with
           | Some src => col_displayName src
           | None => ""
           end.
Proof.
  intros Hconv s Hin. apply converter_inv in Hconv.
  destruct Hconv as (category & Hcategory & ->).
  apply In_nth_error in Hin. destruct Hin as [k Hk].
  cbn [converted series] in Hk. apply series_nth_error in Hk.
  destruct Hk as (j & serie & Hj & _ & -> & _).
  unfold columns_of, legend_of in *.
  destruct (categorical dataView) as [c|]; [|destruct j; discriminate].
  destruct (dv_values c) as [cvalues|] eqn:Hcvalues; [|destruct j; discriminate].
  exists c, cvalues. split; [reflexivity|]. split; [exact Hcvalues|]. reflexivity.
Qed.

Lemma converter_displayName_witness :
  exists result reads s,
    converter dataView_two_by_two sample_palette [] = Ok (result, reads)
    /\ nth_error (series result) 0 = Some s
    /\ displayName s = "Series".
Proof.
  destruct (@converter_converted dataView_two_by_two sample_palette
              {| cat_source := {| col_displayName := "Category" |};
                 cat_values := ["a"; "b"] |} [] eq_refl)
    as [reads Hconv].
  eexists. exists reads. eexists. split; [exact Hconv|].
  split; [reflexivity|].
  destruct (@converter_displayName _ _ _ _ _ Hconv _ (or_introl eq_refl))
    as (c & cvalues & Hc & Hcvalues & Hname).
  injection Hc as <-. injection Hcvalues as <-. exact Hname.
Defined.

(** X6. When [grouped()] yields one group per value column, there are no
    more value columns than category values and no value column is longer
    than the category column, every array read of the converter is within
    the bounds of its array. *)
Theorem converter_reads_within_bounds (dataView : DataView) (colors : IDataColorPalette)
    (category : DataViewCategoryColumn) (result : RadarChartData)
    (reads : list ArrayRead) :
  converter dataView colors [] = Ok (result, reads) ->
  category_of dataView = Some category ->
  one_group_per_column dataView ->
  length (columns_of dataView) <= length (cat_values category) ->
  (forall serie, In serie (columns_of dataView) ->
     length (col_values serie) <= length (cat_values category)) ->
  forallb in_bounds reads = true.
Proof.
  intros Hconv Hcategory Hgroups Hcolumns Hvalues.
  rewrite (converter_returns dataView colors [] Hcategory) in Hconv.
  injection Hconv as _ <-. cbn [app].
  exact (converter_reads_in_bounds dataView Hcategory Hgroups Hcolumns Hvalues).
Qed.

Lemma converter_reads_within_bounds_witness :
  exists result reads,
    converter dataView_two_by_two sample_palette [] = Ok (result, reads)
    /\ forallb in_bounds reads = true.
Proof.
  destruct (@converter_converted dataView_two_by_two sample_palette
              {| cat_source := {| col_displayName := "Category" |};
                 cat_values := ["a"; "b"] |} [] eq_refl)
    as [reads Hconv].
  eexists. exists reads. split; [exact Hconv|].
  apply (@converter_reads_within_bounds dataView_two_by_two sample_palette
           {| cat_source := {| col_displayName := "Category" |};
              cat_values := ["a"; "b"] |} _ reads Hconv);
    [reflexivity | reflexivity | cbn; lia |].
  intros serie [<- | [<- | []]]; cbn; lia.
Defined.

(** * Further properties of update and of the drawn scene *)

(** X7. [update] throws only when the converter throws on the first data
    view: drawing the axis and the data never throws. *)
Theorem update_throws_iff (this : RadarChart) (options : VisualUpdateOptions) :
  update this options = Threw
  <-> exists dataView others,
        dataViews options = Some (dataView :: others)
        /\ converter dataView (this_colors this) [] = TypeError.
Proof.
  split.
  - intros Hthrew.
    destruct (dataViews options) as [[|dataView others]|] eqn:Hviews.
    + unfold update in Hthrew. rewrite Hviews in Hthrew. discriminate.
    + exists dataView, others. split; [reflexivity|].
      destruct (category_of dataView) as [category|] eqn:Hcategory.
      * rewrite (update_rendered this options Hviews Hcategory) in Hthrew.
        discriminate.
      * now apply converter_throws.
    + unfold update in Hthrew. rewrite Hviews in Hthrew. discriminate.
  - intros (dataView & others & Hviews & Hconv).
    unfold update. rewrite Hviews. cbn [nth_error with_dataView this_colors].
    now rewrite Hconv.
Qed.

(** X8. A render replaces the scene instead of adding to it: repeating a
    completed [update] with the same options leaves the visual as the
    first call left it. *)
Theorem update_twice (this this' : RadarChart) (options : VisualUpdateOptions) :
  update this options = Done this' ->
  update this' options = Done this'.
Proof.
  intros Hupdate.
  destruct (dataViews options) as [[|dataView others]|] eqn:Hviews.
  - unfold update in *. rewrite Hviews in *. cbn [nth_error] in *.
    now injection Hupdate as <-.
  - destruct (update_inv this options Hviews Hupdate) as (category & Hcategory & ->).
    rewrite (update_rendered _ options Hviews Hcategory). reflexivity.
  - unfold update in *. rewrite Hviews in *. now injection Hupdate as <-.
Qed.

Lemma update_twice_witness :
  exists this',
    update (init sample_palette) (sample_options dataView_two_by_two) = Done this'
    /\ update this' (sample_options dataView_two_by_two) = Done this'.
Proof.
  eexists. split.
  - apply (@update_rendered (init sample_palette) (sample_options dataView_two_by_two)
             dataView_two_by_two []
             {| cat_source := {| col_displayName := "Category" |};
                cat_values := ["a"; "b"] |}); reflexivity.
  - apply update_twice with (this := init sample_palette).
    apply (@update_rendered (init sample_palette) (sample_options dataView_two_by_two)
             dataView_two_by_two []
             {| cat_source := {| col_displayName := "Category" |};
                cat_values := ["a"; "b"] |}); reflexivity.
Defined.

(** X9. Every series is drawn as a closed polygon: the polygon at the
    position [j] of the series has the class ['radar-chart-serie' + j],
    takes its stroke and fill from the palette at [j], has one point more
    than the series has data points, and its last point repeats its
    first.  The palette colour at [j] is the colour of the series when no
    value column is empty. *)
Theorem update_polygons (this this' : RadarChart) (options : VisualUpdateOptions)
    (dataView : DataView) (others : list DataView) (result : RadarChartData) :
  dataViews options = Some (dataView :: others) ->
  update this options = Done this' ->
  this_data this' = Some result ->
  forall j serie,
    nth_error (series result) j = Some serie ->
    exists points first,
      nth_error (g_children (dataGraphicsContext this')) j
      = Some (SvgPolygon (String.append "radar-chart-serie" (string_of_nat j))
                (color_value (getColorByIndex (this_colors this) j))
                points
                (color_value (getColorByIndex (this_colors this) j)))
      /\ length points = length (data serie) + 1
      /\ nth_error points 0 = Some first
      /\ nth_error points (length (data serie)) = Some first
      /\ ((forall column, In column (columns_of dataView) -> col_values column <> []) ->
          color_value (getColorByIndex (this_colors this) j) = serie_color serie).
Proof.
  intros Hviews Hupdate Hdata j serie Hj.
  destruct (update_inv this options Hviews Hupdate) as (category & Hcategory & ->).
  cbn [rendered this_data] in Hdata. injection Hdata as <-.
  cbn [rendered dataGraphicsContext g_children]. unfold data_scene.
  assert (Hlt : j < length (series (converted dataView (this_colors this) category)))
    by (apply nth_error_Some; congruence).
  rewrite nth_error_app1 by (rewrite mapi_length; exact Hlt).
  rewrite mapi_nth_error, Hj. cbn [option_map Nat.add]. unfold polygon_of.
  assert (Hne : data serie <> []).
  { apply (@converted_series_nonempty dataView (this_colors this) category).
    eapply nth_error_In. exact Hj. }
  destruct (data serie) as [|p ps] eqn:Hpoints; [congruence|].
  do 2 eexists. split; [reflexivity|].
  split; [rewrite length_app, mapi_length; reflexivity|].
  split; [reflexivity|].
  split.
  - rewrite nth_error_app2 by (rewrite mapi_length; lia).
    rewrite mapi_length, Nat.sub_diag. reflexivity.
  - intros Hall. cbn [converted series] in Hj. apply series_nth_error in Hj.
    destruct Hj as (c & column & Hc & _ & -> & ->).
    cbn [serie_of serie_color Nat.add]. do 2 f_equal.
    rewrite filter_all_length.
    + rewrite length_firstn.
      assert (c < length (columns_of dataView)) by (apply nth_error_Some; congruence).
      lia.
    + intros column' Hin. apply in_firstn in Hin. apply Hall in Hin.
      unfold nonempty_column. destruct (col_values column'); congruence.
Qed.

Lemma update_polygons_witness :
  exists this' points first,
    update (init sample_palette) (sample_options dataView_two_by_two) = Done this'
    /\ nth_error (g_children (dataGraphicsContext this')) 1
       = Some (SvgPolygon "radar-chart-serie1" "color1" points "color1")
    /\ length points = 3
    /\ nth_error points 0 = Some first
    /\ nth_error points 2 = Some first.
Proof.
  pose proof (@update_rendered (init sample_palette) (sample_options dataView_two_by_two)
                dataView_two_by_two []
                {| cat_source := {| col_displayName := "Category" |};
                   cat_values := ["a"; "b"] |} eq_refl eq_refl) as Hupdate.
  destruct (@update_polygons (init sample_palette) _
              (sample_options dataView_two_by_two) dataView_two_by_two [] _
              eq_refl Hupdate eq_refl 1 _ eq_refl)
    as (points & first & Hpolygon & Hlength & Hfirst & Hlast & _).
  eexists. exists points, first. split; [exact Hupdate|].
  split; [exact Hpolygon|]. split; [exact Hlength|]. split; [exact Hfirst | exact Hlast].
Defined.

(** X10. After a completed update the data group holds one polygon per
    series, followed by one circle per data point when the nodes are
    shown and by nothing otherwise. *)
Theorem update_data_group (this this' : RadarChart) (options : VisualUpdateOptions)
    (dataView : DataView) (others : list DataView) (result : RadarChartData) :
  dataViews options = Some (dataView :: others) ->
  update this options = Done this' ->
  this_data this' = Some result ->
  exists areas nodes,
    g_children (dataGraphicsContext this') = areas ++ nodes
    /\ length areas = length (series result)
    /\ (forall e, In e areas -> exists class stroke points fill,
                                  e = SvgPolygon class stroke points fill)
    /\ (forall e, In e nodes -> exists r alt cx cy fill, e = SvgCircle r alt cx cy fill)
    /\ length nodes
       = (if truthy (getShowNodes (Some dataView)) then length (values result) else 0).
Proof.
  intros Hviews Hupdate Hdata.
  destruct (update_inv this options Hviews Hupdate) as (category & Hcategory & ->).
  cbn [rendered this_data] in Hdata. injection Hdata as <-.
  cbn [rendered dataGraphicsContext g_children]. unfold data_scene.
  do 2 eexists. split; [reflexivity|].
  split; [apply mapi_length|].
  split.
  { intros e He. apply mapi_in in He. destruct He as (k & serie & _ & ->).
    unfold polygon_of. eauto. }
  destruct (truthy (getShowNodes (Some dataView))).
  - split; [|apply mapi_length].
    intros e He. apply mapi_in in He. destruct He as (k & p & _ & ->).
    unfold node. eauto 6.
  - split; [intros e []|reflexivity].
Qed.

Lemma update_data_group_witness :
  exists this',
    update (init sample_palette) (sample_options dataView_two_by_two) = Done this'
    /\ length (g_children (dataGraphicsContext this')) = 2 + 4.
Proof.
  pose proof (@update_rendered (init sample_palette) (sample_options dataView_two_by_two)
                dataView_two_by_two []
                {| cat_source := {| col_displayName := "Category" |};
                   cat_values := ["a"; "b"] |} eq_refl eq_refl) as Hupdate.
  destruct (@update_data_group (init sample_palette) _
              (sample_options dataView_two_by_two) dataView_two_by_two [] _
              eq_refl Hupdate eq_refl)
    as (areas & nodes & Hchildren & Hareas & _ & _ & Hnodes).
  eexists. split; [exact Hupdate|].
  rewrite Hchildren, length_app, Hareas, Hnodes. reflexivity.
Defined.

(** X11. When the nodes are shown, the circle of a data point has the
    radius [radius * sizeFactor / 100], carries [max(value, 0)] in [alt]
    and is filled with the palette colour of the series of the point. *)
Theorem update_nodes (this this' : RadarChart) (options : VisualUpdateOptions)
    (dataView : DataView) (others : list DataView) (result : RadarChartData)
    (settings : RadarChartSettings) :
  dataViews options = Some (dataView :: others) ->
  update this options = Done this' ->
  this_data this' = Some result ->
  this_settings this' = Some settings ->
  truthy (getShowNodes (Some dataView)) = true ->
  forall k p,
    nth_error (values result) k = Some p ->
    exists cx cy,
      nth_error (g_children (dataGraphicsContext this')) (length (series result) + k)
      = Some (SvgCircle
                (radius settings * getSizeFactorNodes (Some dataView) / 100)
                (Rmax (value p) 0) cx cy
                (color_value (getColorByIndex (this_colors this) (seriesIndex p)))).
Proof.
  intros Hviews Hupdate Hdata Hsettings Hshow k p Hk.
  destruct (update_inv this options Hviews Hupdate) as (category & Hcategory & ->).
  cbn [rendered this_data this_settings] in Hdata, Hsettings.
  injection Hdata as <-. injection Hsettings as <-.
  cbn [rendered dataGraphicsContext g_children]. unfold data_scene.
  rewrite Hshow, nth_error_app2 by (rewrite mapi_length; lia).
  rewrite mapi_length, Nat.add_comm, Nat.add_sub.
  rewrite mapi_nth_error, Hk. cbn [option_map Nat.add]. unfold node.
  cbn [settings_of nodeRadius radius].
  destruct (points_in (this_colors this) (columns_of dataView) 0 p) as (s & v & c & x & _ & _ & ->).
  { cbn [converted values] in Hk. eapply nth_error_In. exact Hk. }
  cbn [point_of color seriesIndex value]. eauto.
Qed.

Lemma update_nodes_witness :
  exists this' cx cy,
    update (init sample_palette) (sample_options dataView_negative) = Done this'
    /\ nth_error (g_children (dataGraphicsContext this')) 2
       = Some (SvgCircle (1 * Rmin (200 / 2) (200 / 2) * (85 / 100) * 4 / 100)
                 (Rmax (-1) 0) cx cy "color0").
Proof.
  pose proof (@update_rendered (init sample_palette) (sample_options dataView_negative)
                dataView_negative []
                {| cat_source := {| col_displayName := "Category" |};
                   cat_values := ["a"; "b"; "c"; "d"] |} eq_refl eq_refl) as Hupdate.
  destruct (@update_nodes (init sample_palette) _ (sample_options dataView_negative)
              dataView_negative [] _ _ eq_refl Hupdate eq_refl eq_refl eq_refl 1 _ eq_refl)
    as (cx & cy & Hnode).
  eexists. exists cx, cy. split; [exact Hupdate | exact Hnode].
Defined.

(** X12. An object that is present in the metadata without a [show]
    property switches its part of the chart off, although the default
    without the object is to show it: no circle is drawn for a nodes
    object without [show], and the axis group stays empty when the level
    axis and category axis objects are both present without [show]. *)
Theorem update_show_undefined (this this' : RadarChart) (options : VisualUpdateOptions)
    (dataView : DataView) (others : list DataView) (objs : DataViewObjects)
    (result : RadarChartData) :
  dataViews options = Some (dataView :: others) ->
  update this options = Done this' ->
  this_data this' = Some result ->
  objects (metadata dataView) = Some objs ->
  (forall nodes,
     obj_nodes objs = Some nodes -> nodes_show nodes = None ->
     length (g_children (dataGraphicsContext this')) = length (series result))
  /\ (forall levelAxis categoryAxis,
        obj_levelAxis objs = Some levelAxis -> levelAxis_show levelAxis = None ->
        obj_categoryAxis objs = Some categoryAxis ->
        categoryAxis_show categoryAxis = None ->
        g_children (axisGraphicsContext this') = []).
Proof.
  intros Hviews Hupdate Hdata Hobjects.
  destruct (update_inv this options Hviews Hupdate) as (category & Hcategory & ->).
  cbn [rendered this_data] in Hdata. injection Hdata as <-.
  cbn [rendered dataGraphicsContext axisGraphicsContext g_children].
  split.
  - intros nodes Hnodes Hshow. unfold data_scene, getShowNodes.
    rewrite Hobjects, Hnodes, Hshow. cbn [truthy].
    now rewrite app_nil_r, mapi_length.
  - intros levelAxis categoryAxis HlevelAxis HshowLevel HcategoryAxis HshowCategory.
    unfold axis_scene, getShowLevelAxis, getShowCategoryAxis.
    now rewrite Hobjects, HlevelAxis, HshowLevel, HcategoryAxis, HshowCategory.
Qed.

Lemma update_show_undefined_witness :
  exists this',
    update (init sample_palette)
      (sample_options (dataView_with_objects objects_without_show)) = Done this'
    /\ length (g_children (dataGraphicsContext this')) = 2
    /\ g_children (axisGraphicsContext this') = [].
Proof.
  pose proof (@update_rendered (init sample_palette)
                (sample_options (dataView_with_objects objects_without_show))
                (dataView_with_objects objects_without_show) []
                {| cat_source := {| col_displayName := "Category" |};
                   cat_values := ["a"; "b"] |} eq_refl eq_refl) as Hupdate.
  destruct (@update_show_undefined (init sample_palette) _
              (sample_options (dataView_with_objects objects_without_show))
              (dataView_with_objects objects_without_show) [] objects_without_show _
              eq_refl Hupdate eq_refl eq_refl) as [Hnodes Haxis].
  eexists. split; [exact Hupdate|]. split.
  - apply (Hnodes _ eq_refl eq_refl).
  - apply (Haxis _ _ eq_refl eq_refl eq_refl eq_refl).
Defined.

(** X13. For a viewport with non-negative sides the radius is 85% of half
    the shorter side, so the circle of that radius around the centre of
    the viewport lies within the viewport, and the data group is moved to
    the upper left corner of the square around that circle. *)
Theorem update_radius (this this' : RadarChart) (options : VisualUpdateOptions)
    (dataView : DataView) (others : list DataView) (settings : RadarChartSettings) :
  dataViews options = Some (dataView :: others) ->
  update this options = Done this' ->
  this_settings this' = Some settings ->
  (0 <= vp_width (viewport options))%R ->
  (0 <= vp_height (viewport options))%R ->
  (radius settings
   = 85 / 100 * Rmin (vp_width (viewport options) / 2) (vp_height (viewport options) / 2)
   /\ 0 <= radius settings
   /\ 0 <= vp_width (viewport options) / 2 - radius settings
   /\ vp_width (viewport options) / 2 + radius settings <= vp_width (viewport options)
   /\ 0 <= vp_height (viewport options) / 2 - radius settings
   /\ vp_height (viewport options) / 2 + radius settings <= vp_height (viewport options))%R
  /\ g_transform (dataGraphicsContext this')
     = Some (vp_width (viewport options) / 2 - radius settings,
             vp_height (viewport options) / 2 - radius settings)%R.
Proof.
  intros Hviews Hupdate Hsettings Hwidth Hheight.
  destruct (update_inv this options Hviews Hupdate) as (category & Hcategory & ->).
  cbn [rendered this_settings] in Hsettings. injection Hsettings as <-.
  cbn [rendered dataGraphicsContext g_transform settings_of radius width height].
  split; [|reflexivity].
  unfold Factor, MarginFactor.
  set (w := vp_width (viewport options)) in *.
  set (h := vp_height (viewport options)) in *.
  assert (Hmin : (0 <= Rmin (w / 2) (h / 2) <= w / 2
                  /\ Rmin (w / 2) (h / 2) <= h / 2)%R).
  { unfold Rmin. destruct (Rle_dec (w / 2) (h / 2)); lra. }
  repeat split; lra.
Qed.

Lemma update_radius_witness :
  exists this' settings,
    update (init sample_palette) (sample_options dataView_two_by_two) = Done this'
    /\ this_settings this' = Some settings
    /\ radius settings = 85%R.
Proof.
  pose proof (@update_rendered (init sample_palette) (sample_options dataView_two_by_two)
                dataView_two_by_two []
                {| cat_source := {| col_displayName := "Category" |};
                   cat_values := ["a"; "b"] |} eq_refl eq_refl) as Hupdate.
  destruct (@update_radius (init sample_palette) _ (sample_options dataView_two_by_two)
              dataView_two_by_two [] _ eq_refl Hupdate eq_refl) as [(Hradius & _) _].
  { cbn. lra. }
  { cbn. lra. }
  do 2 eexists. split; [exact Hupdate|]. split; [reflexivity|].
  rewrite Hradius. cbn [sample_options viewport vp_width vp_height].
  rewrite Rmin_left by lra. lra.
Defined.

(** * Further properties of the geometry *)

Lemma angle_0 (settings : RadarChartSettings) : angle settings 0 = 0%R.
Proof.
  unfold angle, Rdiv. cbn [INR]. ring.
Qed.

Lemma angle_full_turn (settings : RadarChartSettings) :
  catTotal settings <> 0 ->
  angle settings (catTotal settings) = (2 * PI)%R.
Proof.
  intros Hn. unfold angle, TwoPI. field. now apply not_0_INR.
Qed.

(** X14. Every ring is a closed chain of segments: each segment starts
    where the one before it ends, and the last segment ends where the
    first one starts. *)
Theorem ring_closed (settings : RadarChartSettings) (j : nat) :
  catTotal settings <> 0 ->
  (forall i, line_end (ring_line settings j i) = line_start (ring_line settings j (i + 1)))
  /\ line_end (ring_line settings j (catTotal settings - 1))
     = line_start (ring_line settings j 0).
Proof.
  intros Hn. split; [reflexivity|].
  unfold ring_line, line_end, line_start.
  replace (catTotal settings - 1 + 1) with (catTotal settings) by lia.
  rewrite angle_full_turn by exact Hn.
  rewrite angle_0, sin_2PI, cos_2PI, sin_0, cos_0. reflexivity.
Qed.

Lemma ring_closed_witness :
  line_end (ring_line (settings_of dataView_two_by_two
                         {| vp_width := 200; vp_height := 200 |}
                         (converted dataView_two_by_two sample_palette
                            {| cat_source := {| col_displayName := "Category" |};
                               cat_values := ["a"; "b"] |})) 0 1)
  = line_start (ring_line (settings_of dataView_two_by_two
                             {| vp_width := 200; vp_height := 200 |}
                             (converted dataView_two_by_two sample_palette
                                {| cat_source := {| col_displayName := "Category" |};
                                   cat_values := ["a"; "b"] |})) 0 0).
Proof.
  apply (@ring_closed (settings_of dataView_two_by_two
                         {| vp_width := 200; vp_height := 200 |}
                         (converted dataView_two_by_two sample_palette
                            {| cat_source := {| col_displayName := "Category" |};
                               cat_values := ["a"; "b"] |})) 0).
  cbn. lia.
Defined.

(** X15. With a natural number [n >= 1] of segments the rings divide the
    radius evenly: ring [j] has the radius [radius * (j + 1) / n], and the
    corners of the outermost ring are the outer ends of the category
    axes. *)
Theorem outer_ring_meets_axes (settings : RadarChartSettings) (n : nat) :
  levels settings = INR n ->
  0 < n ->
  (forall j, levelFactor settings j = (radius settings * (INR j + 1) / INR n)%R)
  /\ levelFactor settings (n - 1) = radius settings
  /\ (forall i,
        line_start (ring_line settings (n - 1) i) = line_end (category_line settings i)
        /\ line_end (ring_line settings (n - 1) i)
           = line_end (category_line settings (i + 1))).
Proof.
  intros Hlevels Hn.
  assert (Hlast : levelFactor settings (n - 1) = radius settings).
  { unfold levelFactor. rewrite Hlevels.
    replace (INR (n - 1) + 1)%R with (INR n).
    - field. apply not_0_INR. lia.
    - rewrite <- S_INR. f_equal. lia. }
  split; [|split; [exact Hlast|]].
  - intros j. unfold levelFactor, Rdiv. rewrite Hlevels. ring.
  - intros i. unfold ring_line, category_line, line_start, line_end.
    rewrite Hlast. split; reflexivity.
Qed.

Lemma outer_ring_meets_axes_witness :
  levelFactor (settings_of dataView_two_by_two {| vp_width := 200; vp_height := 200 |}
                 (converted dataView_two_by_two sample_palette
                    {| cat_source := {| col_displayName := "Category" |};
                       cat_values := ["a"; "b"] |})) 3
  = radius (settings_of dataView_two_by_two {| vp_width := 200; vp_height := 200 |}
              (converted dataView_two_by_two sample_palette
                 {| cat_source := {| col_displayName := "Category" |};
                    cat_values := ["a"; "b"] |})).
Proof.
  apply (@outer_ring_meets_axes
           (settings_of dataView_two_by_two {| vp_width := 200; vp_height := 200 |}
              (converted dataView_two_by_two sample_palette
                 {| cat_source := {| col_displayName := "Category" |};
                    cat_values := ["a"; "b"] |})) 4).
  - cbn. lra.
  - lia.
Defined.








(** X20. When the category axis is shown, the axis group ends with one
    axis line per category followed by one label per category, and the
    label of category [i] shows the [i]-th category value. *)
Theorem update_category_axis (this this' : RadarChart) (options : VisualUpdateOptions)
    (dataView : DataView) (others : list DataView) (result : RadarChartData)
    (settings : RadarChartSettings) :
  dataViews options = Some (dataView :: others) ->
  update this options = Done this' ->
  this_data this' = Some result ->
  this_settings this' = Some settings ->
  truthy (getShowCategoryAxis (Some dataView)) = true ->
  exists levelPart lines labels,
    g_children (axisGraphicsContext this') = levelPart ++ lines ++ labels
    /\ catTotal settings = length (categories result)
    /\ length lines = length (categories result)
    /\ length labels = length (categories result)
    /\ (forall i d,
          nth_error (categories result) i = Some d ->
          nth_error lines i = Some (category_line settings i)
          /\ nth_error labels i = Some (category_label settings d i)
          /\ exists x y size transform,
               category_label settings d i
               = SvgText x y size transform (CategoryText d)).
Proof.
  intros Hviews Hupdate Hdata Hsettings Hshow.
  destruct (update_inv this options Hviews Hupdate) as (category & Hcategory & ->).
  cbn [rendered this_data this_settings] in Hdata, Hsettings.
  injection Hdata as <-. injection Hsettings as <-.
  cbn [rendered axisGraphicsContext g_children]. unfold axis_scene, category_axis.
  rewrite Hshow. do 3 eexists. split; [reflexivity|].
  cbn [settings_of catTotal catAxis].
  split; [reflexivity|]. split; [now rewrite length_map, length_seq|].
  split; [apply mapi_length|].
  intros i d Hi.
  assert (Hlt : i < length (categories (converted dataView (this_colors this) category)))
    by (apply nth_error_Some; congruence).
  split; [|split].
  - rewrite nth_error_map, nth_error_seq.
    apply Nat.ltb_lt in Hlt. now rewrite Hlt.
  - now rewrite mapi_nth_error, Hi.
  - unfold category_label. eauto.
Qed.

Lemma update_category_axis_witness :
  exists this' settings levelPart lines labels,
    update (init sample_palette) (sample_options dataView_two_by_two) = Done this'
    /\ this_settings this' = Some settings
    /\ g_children (axisGraphicsContext this') = levelPart ++ lines ++ labels
    /\ nth_error labels 1 = Some (category_label settings "b" 1).
Proof.
  pose proof (@update_rendered (init sample_palette) (sample_options dataView_two_by_two)
                dataView_two_by_two []
                {| cat_source := {| col_displayName := "Category" |};
                   cat_values := ["a"; "b"] |} eq_refl eq_refl) as Hupdate.
  destruct (@update_category_axis (init sample_palette) _
              (sample_options dataView_two_by_two) dataView_two_by_two [] _ _
              eq_refl Hupdate eq_refl eq_refl eq_refl)
    as (levelPart & lines & labels & Hchildren & _ & _ & _ & Hnth).
  eexists. eexists. exists levelPart, lines, labels.
  split; [exact Hupdate|]. split; [reflexivity|]. split; [exact Hchildren|].
  apply (Hnth 1 "b" eq_refl).
Defined.

(** * The property pane and the capabilities *)

(** X21. [enumerateObjectInstances] stays within the capabilities: an
    instance it returns is for the object asked for, that object is
    declared in [capabilities.objects], the instance lists exactly the
    properties declared for it, in the declared order, and every value
    fits the declared type.  For the declared objects ['general'] and
    ['dataPoint'] it returns nothing. *)
Theorem enumerateObjectInstances_declared (this : RadarChart) (name : string) :
  (forall instance,
     In instance (enumerateObjectInstances this name) ->
     objectName instance = name
     /\ exists declared,
          assoc name capabilities_objects = Some declared
          /\ map fst (properties instance) = map fst declared
          /\ forall property v,
               In (property, v) (properties instance) ->
               exists t, assoc property declared = Some t /\ has_type v t = true)
  /\ enumerateObjectInstances this "general" = []
  /\ enumerateObjectInstances this "dataPoint" = [].
Proof.
  split; [|split; reflexivity].
  intros instance Hin. unfold enumerateObjectInstances in Hin.
  destruct (String.eqb_spec name "nodes") as [-> | _].
  { destruct Hin as [<- | []]. split; [reflexivity|].
    eexists. split; [reflexivity|]. split; [reflexivity|].
    intros property v [[= <- <-] | [[= <- <-] | []]].
    - exists TypeBool. split; [reflexivity|].
      destruct (getShowNodes (this_dataView this)); reflexivity.
    - exists TypeNumeric. split; reflexivity. }
  destruct (String.eqb_spec name "categoryAxis") as [-> | _].
  { destruct Hin as [<- | []]. split; [reflexivity|].
    eexists. split; [reflexivity|]. split; [reflexivity|].
    intros property v [[= <- <-] | []].
    exists TypeBool. split; [reflexivity|].
    destruct (getShowCategoryAxis (this_dataView this)); reflexivity. }
  destruct (String.eqb_spec name "levelAxis") as [-> | _]; [|contradiction].
  destruct Hin as [<- | []]. split; [reflexivity|].
  eexists. split; [reflexivity|]. split; [reflexivity|].
  intros property v [[= <- <-] | [[= <- <-] | []]].
  - exists TypeBool. split; [reflexivity|].
    destruct (getShowLevelAxis (this_dataView this)); reflexivity.
  - exists TypeNumeric. split; reflexivity.
Qed.

(** X22. What is configured is used and echoed.  After an update the
    property pane shows the [show], [sizeFactor] and [segments] values of
    the objects of the data view, the node radius is
    [radius * sizeFactor / 100] and the number of levels is [segments];
    a [sizeFactor] or [segments] left undefined in a present object counts
    as 4. *)
Theorem update_configured (this this' : RadarChart) (options : VisualUpdateOptions)
    (dataView : DataView) (others : list DataView) (objs : DataViewObjects)
    (settings : RadarChartSettings) :
  dataViews options = Some (dataView :: others) ->
  update this options = Done this' ->
  this_settings this' = Some settings ->
  objects (metadata dataView) = Some objs ->
  (forall nodes,
     obj_nodes objs = Some nodes ->
     let sizeFactor := match nodes_sizeFactor nodes with Some x => x | None => 4%R end in
     map (@properties) (enumerateObjectInstances this' "nodes")
     = [[("show", of_boolean (nodes_show nodes)); ("sizeFactor", PNumber sizeFactor)]]
     /\ nodeRadius settings = (radius settings * sizeFactor / 100)%R)
  /\ (forall levelAxis,
        obj_levelAxis objs = Some levelAxis ->
        let segments :=
          match levelAxis_segments levelAxis with Some x => x | None => 4%R end in
        map (@properties) (enumerateObjectInstances this' "levelAxis")
        = [[("show", of_boolean (levelAxis_show levelAxis));
            ("segments", PNumber segments)]]
        /\ levels settings = segments
        /\ levelsFormat settings = levelAxis_format levelAxis)
  /\ (forall categoryAxis,
        obj_categoryAxis objs = Some categoryAxis ->
        map (@properties) (enumerateObjectInstances this' "categoryAxis")
        = [[("show", of_boolean (categoryAxis_show categoryAxis))]]).
Proof.
  intros Hviews Hupdate Hsettings Hobjects.
  destruct (update_inv this options Hviews Hupdate) as (category & Hcategory & ->).
  cbn [rendered this_settings] in Hsettings. injection Hsettings as <-.
  unfold enumerateObjectInstances.
  cbn [rendered this_dataView String.eqb Ascii.eqb Bool.eqb app map properties
       settings_of nodeRadius radius levels levelsFormat].
  unfold getShowNodes, getSizeFactorNodes, getShowLevelAxis, getSegmentsLevelAxis,
    getFormatLevelAxis, getShowCategoryAxis.
  rewrite Hobjects.
  split; [|split].
  - intros nodes ->. split; reflexivity.
  - intros levelAxis ->. split; [reflexivity|]. split; reflexivity.
  - intros categoryAxis ->. reflexivity.
Qed.

Lemma update_configured_witness :
  exists this' settings,
    update (init sample_palette)
      (sample_options (dataView_with_objects objects_configured)) = Done this'
    /\ this_settings this' = Some settings
    /\ map (@properties) (enumerateObjectInstances this' "nodes")
       = [[("show", PBoolean true); ("sizeFactor", PNumber 7)]]
    /\ levels settings = 4%R.
Proof.
  pose proof (@update_rendered (init sample_palette)
                (sample_options (dataView_with_objects objects_configured))
                (dataView_with_objects objects_configured) []
                {| cat_source := {| col_displayName := "Category" |};
                   cat_values := ["a"; "b"] |} eq_refl eq_refl) as Hupdate.
  destruct (@update_configured (init sample_palette) _
              (sample_options (dataView_with_objects objects_configured))
              (dataView_with_objects objects_configured) [] objects_configured _
              eq_refl Hupdate eq_refl eq_refl) as (Hnodes & HlevelAxis & _).
  do 2 eexists. split; [exact Hupdate|]. split; [reflexivity|]. split.
  - apply (Hnodes _ eq_refl).
  - apply (HlevelAxis _ eq_refl).
Defined.

(** X23. The [shape] property of the nodes object, which [getShapeNodes]
    reads (with the default ['square']), has no effect on a render: data
    views that differ only in it give the same data, the same settings and
    the same scene. *)
Theorem update_ignores_shape (this this1 : RadarChart)
    (options1 options2 : VisualUpdateOptions) (dataView : DataView)
    (others1 others2 : list DataView) (shape : option string) :
  dataViews options1 = Some (dataView :: others1) ->
  dataViews options2 = Some (with_shape shape dataView :: others2) ->
  viewport options1 = viewport options2 ->
  update this options1 = Done this1 ->
  exists this2,
    update this options2 = Done this2
    /\ this_data this2 = this_data this1
    /\ this_settings this2 = this_settings this1
    /\ dataGraphicsContext this2 = dataGraphicsContext this1
    /\ axisGraphicsContext this2 = axisGraphicsContext this1
    /\ (forall nodes objs,
          objects (metadata dataView) = Some objs ->
          obj_nodes objs = Some nodes ->
          getShapeNodes (this_dataView this2)
          = match shape with Some s => s | None => "square" end).
Proof.
  intros Hviews1 Hviews2 Hviewport Hupdate.
  destruct (update_inv this options1 Hviews1 Hupdate) as (category & Hcategory & ->).
  assert (Hcategory2 : category_of (with_shape shape dataView) = Some category)
    by exact Hcategory.
  exists (rendered this (viewport options2) (with_shape shape dataView)
            (converted (with_shape shape dataView) (this_colors this) category)).
  split; [exact (update_rendered this options2 Hviews2 Hcategory2)|].
  rewrite <- Hviewport.
  assert (Hshow : getShowNodes (Some (with_shape shape dataView))
                  = getShowNodes (Some dataView)).
  { unfold getShowNodes, with_shape. cbn [metadata objects].
    destruct (objects (metadata dataView)) as [objs|]; [|reflexivity].
    cbn [obj_nodes]. destruct (obj_nodes objs); reflexivity. }
  assert (Hsize : getSizeFactorNodes (Some (with_shape shape dataView))
                  = getSizeFactorNodes (Some dataView)).
  { unfold getSizeFactorNodes, with_shape. cbn [metadata objects].
    destruct (objects (metadata dataView)) as [objs|]; [|reflexivity].
    cbn [obj_nodes]. destruct (obj_nodes objs); reflexivity. }
  assert (Hlevel : getShowLevelAxis (Some (with_shape shape dataView))
                   = getShowLevelAxis (Some dataView)).
  { unfold getShowLevelAxis, with_shape. cbn [metadata objects].
    destruct (objects (metadata dataView)) as [objs|]; reflexivity. }
  assert (Hsegments : getSegmentsLevelAxis (Some (with_shape shape dataView))
                      = getSegmentsLevelAxis (Some dataView)).
  { unfold getSegmentsLevelAxis, with_shape. cbn [metadata objects].
    destruct (objects (metadata dataView)) as [objs|]; reflexivity. }
  assert (Hformat : getFormatLevelAxis (Some (with_shape shape dataView))
                    = getFormatLevelAxis (Some dataView)).
  { unfold getFormatLevelAxis, with_shape. cbn [metadata objects].
    destruct (objects (metadata dataView)) as [objs|]; reflexivity. }
  assert (Hcat : getShowCategoryAxis (Some (with_shape shape dataView))
                 = getShowCategoryAxis (Some dataView)).
  { unfold getShowCategoryAxis, with_shape. cbn [metadata objects].
    destruct (objects (metadata dataView)) as [objs|]; reflexivity. }
  assert (Hconverted : converted (with_shape shape dataView) (this_colors this) category
                       = converted dataView (this_colors this) category)
    by reflexivity.
  assert (Hsettings : settings_of (with_shape shape dataView) (viewport options1)
                        (converted dataView (this_colors this) category)
                      = settings_of dataView (viewport options1)
                          (converted dataView (this_colors this) category)).
  { unfold settings_of. now rewrite Hsize, Hsegments, Hformat. }
  cbn [rendered this_data this_settings dataGraphicsContext axisGraphicsContext
       this_dataView].
  rewrite Hconverted, Hsettings.
  unfold data_scene, axis_scene. rewrite Hshow, Hlevel, Hcat.
  do 4 (split; [reflexivity|]).
  intros nodes objs Hobjects Hnodes.
  unfold getShapeNodes, with_shape. cbn [metadata objects].
  rewrite Hobjects. cbn [obj_nodes]. rewrite Hnodes. reflexivity.
Qed.

Lemma update_ignores_shape_witness :
  exists this1 this2,
    update (init sample_palette)
      (sample_options (dataView_with_objects objects_configured)) = Done this1
    /\ update (init sample_palette)
         (sample_options (with_shape (Some "triangle")
                            (dataView_with_objects objects_configured))) = Done this2
    /\ dataGraphicsContext this2 = dataGraphicsContext this1
    /\ getShapeNodes (this_dataView this2) = "triangle".
Proof.
  pose proof (@update_rendered (init sample_palette)
                (sample_options (dataView_with_objects objects_configured))
                (dataView_with_objects objects_configured) []
                {| cat_source := {| col_displayName := "Category" |};
                   cat_values := ["a"; "b"] |} eq_refl eq_refl) as Hupdate.
  destruct (@update_ignores_shape (init sample_palette) _
              (sample_options (dataView_with_objects objects_configured))
              (sample_options (with_shape (Some "triangle")
                                 (dataView_with_objects objects_configured)))
              (dataView_with_objects objects_configured) [] [] (Some "triangle")
              eq_refl eq_refl eq_refl Hupdate)
    as (this2 & Hupdate2 & _ & _ & Hscene & _ & Hshape).
  eexists. exists this2. split; [exact Hupdate|]. split; [exact Hupdate2|].
  split; [exact Hscene|]. apply (Hshape _ _ eq_refl eq_refl).
Defined.
